(** * Retail ETL pipeline: extract, transform, load, audit

    A shallow embedding of [etl/extract.py], [etl/transform.py],
    [etl/load.py], [etl/pipeline.py] and the task callables of
    [dags/etl_dag.py].

    - A pandas [DataFrame] is a list of column labels and a list of rows;
      a row maps a column label to a cell.
    - Python exceptions are values of [exn]; a computation returns
      [Ok a] or [Raise x] ([res]).
    - The warehouse (BigQuery) and the console are an explicit [World]
      threaded through the loader and the orchestrator; every external
      call has an entry in [Env] saying whether it fails and with what.

    Modelling scope, stated once:
    - JSON values are null, strings and integers (no floats, booleans,
      nested objects); strings are ASCII;
    - [None] and [NaN] are one null cell [VNull]; [NaT] is [VNaT];
      pandas tells a [None] key from a [NaN] key when it drops
      duplicates, so statements about the record kept for a code are
      made for codes that are not null;
    - text statements are made for ASCII strings, timestamp statements
      for integer second counts within the range of a timestamp;
    - the order of the keys inside one JSON object is not kept (a record
      is a finite map); the order of the records is;
    - the [print]s of the extractor and of the transformer are not
      recorded: both are modelled by what they return;
    - external calls raise subclasses of [Exception] only;
    - of [dags/etl_dag.py] the three task callables are modelled, with
      the XCom store as a map and the JSON codec as a parameter; the
      scheduler (schedule, retries, task order) is not.

    The file has two parts: the definitions, in the order of the
    pipeline, then the lemmas and the theorems. *)

From Stdlib Require Import ZArith String Ascii.
From stdpp Require Import base option list gmap strings fin_maps.

Local Open Scope string_scope.
Local Open Scope Z_scope.

(** ** Python values and exceptions *)

Inductive value :=
  | VNull                (* None / NaN *)
  | VNaT                 (* pandas NaT *)
  | VStr (s : string)
  | VNum (n : Z)
  | VTime (t : Z).       (* a timestamp, seconds since the epoch *)

#[global] Instance value_eq_dec : EqDecision value.
Proof. solve_decision. Defined.

(** Subclasses of Python's [Exception] that the pipeline can see. *)
Inductive exn :=
  | KeyError (key : string)
  | KeyErrorIndex (labels : list string)   (* KeyError(Index([...])) *)
  | AttributeError (msg : string)
  | RequestTimeout
  | RequestException (msg : string)
  | GoogleAPIError (msg : string).

(** What a [raise] carries: an [Exception], or the [SystemExit] of
    [sys.exit], which [except Exception] does not catch. *)
Inductive raised :=
  | Exception (e : exn)
  | SystemExit (code : Z).

Inductive res (A : Type) :=
  | Ok (a : A)
  | Raise (x : raised).
Arguments Ok {A} a.
Arguments Raise {A} x.

Definition res_bind {A B} (r : res A) (k : A → res B) : res B :=
  match r with
  | Ok a => k a
  | Raise x => Raise x
  end.

Declare Scope res_scope.
Delimit Scope res_scope with res.
Notation "x <~ r ; k" := (res_bind r (fun x => k))
  (at level 100, r at next level, k at level 200, right associativity,
   format "x  <~  r ;  '/' k") : res_scope.
Local Open Scope res_scope.

(** [repr] of the labels of an [Index]: ['a', 'b']. *)
Fixpoint labels_repr (labels : list string) : string :=
  match labels with
  | [] => EmptyString
  | [l] => "'" ++ l ++ "'"
  | l :: ls => "'" ++ l ++ "', " ++ labels_repr ls
  end.

(** [str(e)] *)
Definition exn_str (e : exn) : string :=
  match e with
  | KeyError k => "'" ++ k ++ "'"
  | KeyErrorIndex ls => "Index([" ++ labels_repr ls ++ "], dtype='object')"
  | AttributeError m => m
  | RequestTimeout => "timeout"
  | RequestException m => m
  | GoogleAPIError m => m
  end.

(** ** Python string methods used by the transformer (ASCII)

    A string is a sequence of bytes. On an ASCII string ([is_ascii])
    the functions below are Python's [str.strip], [str.lower] and
    [str.title]; Python's methods work on Unicode code points, and on a
    string with a byte above 127 the functions below say nothing about
    them. A statement about the text these functions produce assumes
    [is_ascii]. *)

Module Str.

Definition code (a : ascii) : N := N_of_ascii a.

Fixpoint is_ascii (s : string) : bool :=
  match s with
  | String a s' => (code a <? 128)%N && is_ascii s'
  | EmptyString => true
  end.

(** [str.isspace] on ASCII: TAB..CR, FS..US and the space. *)
Definition is_space (a : ascii) : bool :=
  ((9 <=? code a) && (code a <=? 13) || (28 <=? code a) && (code a <=? 32))%N.
Definition is_upper (a : ascii) : bool :=
  ((65 <=? code a) && (code a <=? 90))%N.
Definition is_lower (a : ascii) : bool :=
  ((97 <=? code a) && (code a <=? 122))%N.
Definition is_cased (a : ascii) : bool := is_upper a || is_lower a.

Definition to_lower (a : ascii) : ascii :=
  if is_upper a then ascii_of_N (code a + 32) else a.
Definition to_upper (a : ascii) : ascii :=
  if is_lower a then ascii_of_N (code a - 32) else a.

Fixpoint lstrip (s : string) : string :=
  match s with
  | String a s' => if is_space a then lstrip s' else s
  | EmptyString => EmptyString
  end.

Fixpoint rstrip (s : string) : string :=
  match s with
  | String a s' =>
      match rstrip s' with
      | EmptyString => if is_space a then EmptyString else String a EmptyString
      | t => String a t
      end
  | EmptyString => EmptyString
  end.

(** [s.strip()] *)
Definition strip (s : string) : string := rstrip (lstrip s).

(** [s.lower()] *)
Fixpoint lower (s : string) : string :=
  match s with
  | String a s' => String (to_lower a) (lower s')
  | EmptyString => EmptyString
  end.

(** [s.title()]: a cased character is upper-cased when the previous
    character is not cased, lower-cased otherwise. *)
Fixpoint title_from (previous_is_cased : bool) (s : string) : string :=
  match s with
  | String a s' =>
      String (if previous_is_cased then to_lower a else to_upper a)
             (title_from (is_cased a) s')
  | EmptyString => EmptyString
  end.
Definition title (s : string) : string := title_from false s.

Definition is_digit (a : ascii) : bool :=
  ((48 <=? code a) && (code a <=? 57))%N.

Fixpoint digits (acc : Z) (s : string) : option Z :=
  match s with
  | String a s' =>
      if is_digit a then digits (10 * acc + Z.of_N (code a - 48)) s' else None
  | EmptyString => Some acc
  end.

(** A decimal integer literal with an optional sign, surrounded by
    white space. *)
Definition parse_int (s : string) : option Z :=
  match strip s with
  | EmptyString => None
  | String "-" (String _ _ as d) => Z.opp <$> digits 0 d
  | String "+" (String _ _ as d) => digits 0 d
  | d => digits 0 d
  end.

End Str.

(** ** pandas: the part of the DataFrame API the pipeline calls *)

Abbreviation Row := (gmap string value).
Abbreviation Series := (list value).

Record DataFrame := mkDF {
  columns : list string;
  rows : list Row
}.

(** The cell of row [r] under label [c]; a label the row does not carry
    reads as null. *)
Definition cell (r : Row) (c : string) : value := default VNull (r !! c).

Definition isna (v : value) : bool :=
  match v with
  | VNull | VNaT => true
  | _ => false
  end.

Definition is_str (v : value) : bool :=
  match v with
  | VStr _ => true
  | _ => false
  end.

Module pd.

(** [row.reindex(cols)]: exactly the labels [cols], null where the row
    has none. *)
Definition reindex (cols : list string) (r : Row) : Row :=
  list_to_map (map (λ c, (c, cell r c)) cols).

(** Labels of a list of JSON objects, each once, in order of first
    appearance (the order of the keys inside one object is the map's). *)
Definition union_keys (records : list Row) : list string :=
  foldl (λ acc r, (acc ++ filter (λ k, k ∉ acc) (map fst (map_to_list r)))%list)
        [] records.

(** [pd.DataFrame(records)], and [pd.DataFrame()] for [records = []]. *)
Definition from_records (records : list Row) : DataFrame :=
  let cols := union_keys records in
  mkDF cols (map (reindex cols) records).

(** [len(df)] *)
Definition len (df : DataFrame) : nat := length (rows df).

(** [df.empty]: some axis has length 0. *)
Definition empty (df : DataFrame) : bool :=
  bool_decide (columns df = []) || bool_decide (rows df = []).

(** [df[col]] *)
Definition getitem (df : DataFrame) (col : string) : res Series :=
  if decide (col ∈ columns df)
  then Ok (map (λ r, cell r col) (rows df))
  else Raise (Exception (KeyError col)).

(** [df[cols].copy()] *)
Definition getitems (df : DataFrame) (cols : list string) : res DataFrame :=
  match filter (λ c, c ∉ columns df) cols with
  | [] => Ok (mkDF cols (map (reindex cols) (rows df)))
  | c :: _ => Raise (Exception (KeyError c))
  end.

(** [df[col] = s] for a series [s] with the frame's index. *)
Definition setitem (df : DataFrame) (col : string) (s : Series) : DataFrame :=
  mkDF (if decide (col ∈ columns df) then columns df else (columns df ++ [col])%list)
       (zip_with (λ r v, <[col := v]> r) (rows df) s).

(** [df[col] = v] for a scalar [v]. *)
Definition setitem_scalar (df : DataFrame) (col : string) (v : value) : DataFrame :=
  mkDF (if decide (col ∈ columns df) then columns df else (columns df ++ [col])%list)
       (map (λ r, <[col := v]> r) (rows df)).

(** [df.loc[mask, col] = v] for an existing column [col]. *)
Definition loc_set (df : DataFrame) (mask : list bool) (col : string) (v : value)
  : DataFrame :=
  mkDF (columns df)
       (zip_with (λ r (b : bool), if b then <[col := v]> r else r) (rows df) mask).

(** [s == v] *)
Definition eq_scalar (s : Series) (v : value) : list bool :=
  map (λ x, bool_decide (x = v)) s.

(** [s.fillna(v)] *)
Definition fillna (s : Series) (v : value) : Series :=
  map (λ x, if isna x then v else x) s.

(** [s.duplicated(keep="first")] on keys that are not null. [None] and
    [NaN] are one [VNull] here, so null keys count as equal to each
    other; pandas keeps a [None] key and a [NaN] key apart in a column
    of objects. A statement about which row is kept for a key is made
    for keys that are not null ([exact_key] below). *)
Fixpoint duplicated_from (seen : list value) (s : Series) : list bool :=
  match s with
  | [] => []
  | v :: s' => bool_decide (v ∈ seen) :: duplicated_from (v :: seen) s'
  end.
Definition duplicated (s : Series) : list bool := duplicated_from [] s.

(** [df.drop_duplicates(subset=[col], inplace=True)]; a label of the
    subset that is not a column raises [KeyError(Index([col]))]. *)
Definition drop_duplicates (df : DataFrame) (col : string) : res DataFrame :=
  if decide (col ∈ columns df) then
    let s := map (λ r, cell r col) (rows df) in
    Ok (mkDF (columns df)
             (fst <$> filter (λ rb, snd rb = false) (zip (rows df) (duplicated s))))
  else Raise (Exception (KeyErrorIndex [col])).

(** [df.drop(columns=[col], inplace=True)] *)
Definition drop_column (df : DataFrame) (col : string) : res DataFrame :=
  if decide (col ∈ columns df)
  then Ok (mkDF (filter (λ c, c ≠ col) (columns df)) (map (delete col) (rows df)))
  else Raise (Exception (KeyError col)).

(** [s.str]: refused unless the values are strings; an object column
    that mixes strings with other values is accepted. *)
Definition str (s : Series) : res Series :=
  if existsb is_str s || forallb isna s
  then Ok s
  else Raise (Exception (AttributeError "Can only use .str accessor with string values!")).

(** An element-wise string method: a cell that is not a string
    becomes null. *)
Definition str_method (f : string → string) (v : value) : value :=
  match v with
  | VStr x => VStr (f x)
  | _ => VNull
  end.

Definition str_strip (s : Series) : res Series :=
  s <~ str s; Ok (map (str_method Str.strip) s).
Definition str_title (s : Series) : res Series :=
  s <~ str s; Ok (map (str_method Str.title) s).
Definition str_lower (s : Series) : res Series :=
  s <~ str s; Ok (map (str_method Str.lower) s).

(** [pd.to_numeric(s, errors="coerce")] on cells that are null or
    integers. Of the strings only the decimal integer literals are
    read; pandas reads other literals too (['1e3'], ['1.5'], ['inf']),
    and a statement about a converted cell assumes the cell is not a
    string. *)
Definition to_numeric_value (v : value) : value :=
  match v with
  | VNum n => VNum n
  | VStr x => from_option VNum VNull (Str.parse_int x)
  | _ => VNull
  end.
Definition to_numeric (s : Series) : Series := map to_numeric_value s.

(** [pd.to_datetime(s, unit="s", errors="coerce")] on second counts
    within the range of a nanosecond timestamp, and on nulls. A count
    outside that range gives [NaT] here; pandas gives [NaT] or, for a
    count that does not fit 64 bits, raises [OverflowError], and a
    statement about the conversion or about what the transformer can
    raise assumes counts within the range. *)
Definition to_datetime_value (v : value) : value :=
  match v with
  | VNum n =>
      if (-9223372036 <=? n) && (n <=? 9223372036) then VTime n else VNaT
  | _ => VNaT
  end.
Definition to_datetime (s : Series) : Series := map to_datetime_value s.

End pd.

(** ** etl/transform.py *)

Definition columns_needed : list string :=
  [ "code"; "product_name"; "categories";
    "quantity"; "stores"; "countries";
    "nutriscore_grade"; "last_modified_t" ].

(** [now] is the value of [datetime.now()] at the metadata step. *)
Definition transform_product_data (now : Z) (df : DataFrame) : res DataFrame :=
  if pd.empty df then Ok df else
  (* Step 1: keep only relevant columns *)
  let columns_present := filter (λ col, col ∈ columns df) columns_needed in
  df <~ pd.getitems df columns_present;
  (* Step 2: remove duplicates *)
  df <~ pd.drop_duplicates df "code";
  (* Step 3: handle nulls *)
  s <~ pd.getitem df "product_name";
  let df := pd.setitem df "product_name" (pd.fillna s (VStr "Unknown Product")) in
  s <~ pd.getitem df "categories";
  let df := pd.setitem df "categories" (pd.fillna s (VStr "Uncategorized")) in
  s <~ pd.getitem df "stores";
  let df := pd.setitem df "stores" (pd.fillna s (VStr "Unknown Store")) in
  s <~ pd.getitem df "countries";
  let df := pd.setitem df "countries" (pd.fillna s (VStr "Unknown Country")) in
  s <~ pd.getitem df "nutriscore_grade";
  let df := pd.setitem df "nutriscore_grade" (pd.fillna s (VStr "not_rated")) in
  s <~ pd.getitem df "quantity";
  let df := pd.setitem df "quantity" (pd.fillna s (VStr "Unknown")) in
  (* Step 4: standardize text fields *)
  s <~ pd.getitem df "product_name";
  s <~ pd.str_strip s;
  s <~ pd.str_title s;
  let df := pd.setitem df "product_name" s in
  s <~ pd.getitem df "nutriscore_grade";
  s <~ pd.str_strip s;
  s <~ pd.str_lower s;
  let df := pd.setitem df "nutriscore_grade" s in
  (* Step 5: convert timestamp to readable date *)
  df <~ (if decide ("last_modified_t" ∈ columns df) then
           s <~ pd.getitem df "last_modified_t";
           let df := pd.setitem df "last_modified_t" (pd.to_numeric s) in
           s <~ pd.getitem df "last_modified_t";
           let df := pd.setitem df "last_modified_date" (pd.to_datetime s) in
           pd.drop_column df "last_modified_t"
         else Ok df);
  (* Step 6: add pipeline metadata *)
  let df := pd.setitem_scalar df "extracted_at" (VTime now) in
  let df := pd.setitem_scalar df "pipeline_version" (VStr "1.0") in
  (* Step 7: flag data quality issues *)
  let df := pd.setitem_scalar df "quality_flag" (VStr "ok") in
  m <~ (s <~ pd.getitem df "product_name"; Ok (pd.eq_scalar s (VStr "Unknown Product")));
  let df := pd.loc_set df m "quality_flag" (VStr "missing_name") in
  m <~ (s <~ pd.getitem df "nutriscore_grade"; Ok (pd.eq_scalar s (VStr "not_rated")));
  let df := pd.loc_set df m "quality_flag" (VStr "missing_nutriscore") in
  Ok df.

(** ** The transformer, row by row

    After the duplicates are dropped every step of the transformer acts
    on each row on its own. [clean_row] is that action; the frame-level
    function is related to it in [transform_rows]. *)

Definition fill (c d : string) (r : Row) : Row :=
  <[c := if isna (cell r c) then VStr d else cell r c]> r.

Definition normalize (c : string) (f : string → string) (r : Row) : Row :=
  <[c := pd.str_method f (pd.str_method Str.strip (cell r c))]> r.

Definition convert_timestamp (r : Row) : Row :=
  let r := <["last_modified_t" := pd.to_numeric_value (cell r "last_modified_t")]> r in
  let r := <["last_modified_date" := pd.to_datetime_value (cell r "last_modified_t")]> r in
  delete "last_modified_t" r.

Definition stamp (now : Z) (r : Row) : Row :=
  <["pipeline_version" := VStr "1.0"]> (<["extracted_at" := VTime now]> r).

Definition flag (r : Row) : Row :=
  let r := <["quality_flag" := VStr "ok"]> r in
  let r := if bool_decide (cell r "product_name" = VStr "Unknown Product")
           then <["quality_flag" := VStr "missing_name"]> r else r in
  if bool_decide (cell r "nutriscore_grade" = VStr "not_rated")
  then <["quality_flag" := VStr "missing_nutriscore"]> r else r.

Definition fill_defaults (r : Row) : Row :=
  fill "quantity" "Unknown"
    (fill "nutriscore_grade" "not_rated"
      (fill "countries" "Unknown Country"
        (fill "stores" "Unknown Store"
          (fill "categories" "Uncategorized"
            (fill "product_name" "Unknown Product" r))))).

Definition clean_row (has_timestamp : bool) (now : Z) (r : Row) : Row :=
  let r := fill_defaults r in
  let r := normalize "product_name" Str.title r in
  let r := normalize "nutriscore_grade" Str.lower r in
  let r := if has_timestamp then convert_timestamp r else r in
  flag (stamp now r).

(** The rows that [drop_duplicates] keeps: those whose key is not the
    key of an earlier row. *)
Fixpoint keep_first (col : string) (seen : list value) (l : list Row) : list Row :=
  match l with
  | [] => []
  | r :: l' =>
      if decide (cell r col ∈ seen) then keep_first col (cell r col :: seen) l'
      else r :: keep_first col (cell r col :: seen) l'
  end.

(** The record the transformer makes of a row of a frame with columns
    [cols]: projection on the needed columns, then [clean_row]. *)
Definition clean_record (cols : list string) (now : Z) (r : Row) : Row :=
  clean_row (bool_decide ("last_modified_t" ∈ cols)) now
            (pd.reindex (filter (λ col, col ∈ cols) columns_needed) r).


(** The defaults of step 3, field by field. *)
Definition defaults : list (string * string) :=
  [ ("product_name", "Unknown Product");
    ("categories", "Uncategorized");
    ("stores", "Unknown Store");
    ("countries", "Unknown Country");
    ("nutriscore_grade", "not_rated");
    ("quantity", "Unknown") ].

(** A cell that is a string or null. *)
Definition is_text (v : value) : bool := is_str v || isna v.

(** ** The world outside: warehouse, console, external calls *)

(** A row of the table [pipeline_audit_log]. *)
Record AuditEntry := mkAudit {
  run_timestamp : string;
  status : string;
  rows_loaded : nat;
  error_message : option string;
  pipeline_version : string
}.

(** The three tables of the dataset; [None] is a table that does not
    exist yet. *)
Record BigQuery := mkBQ {
  staging : option DataFrame;         (* <BQ_TABLE>_staging *)
  production : option DataFrame;      (* <BQ_TABLE> *)
  pipeline_audit_log : list AuditEntry
}.

(** One constructor for each [print] of [load.py] and [pipeline.py]. *)
Inductive line :=
  | StartingLoad (n : nat)
  | EmptySkipping
  | DatasetReady
  | DatasetAlreadyExists (e : exn)
  | LoadingToStaging
  | StagingComplete
  | ProductionUpdated
  | Verified (total : Z)
  | ErrorLoading (e : exn)
  | AuditUpdated (status : string)
  | AuditWarning (e : exn)
  | Banner
  | PipelineStart
  | Category (category : string)
  | StageExtract
  | RawRows (n : nat)
  | StageTransform
  | CleanRows (n : nat)
  | StageLoad
  | PipelineComplete
  | TotalRows (n : nat)
  | PipelineFailed (e : exn).

Record World := mkWorld {
  bq : BigQuery;
  stdout : list line
}.

(** What the external calls of one run do. Each call site has its own
    entry: [None] is success, [Some e] the exception it raises. A load
    job and a [CREATE OR REPLACE] query take effect wholly or not at
    all. The count read back is whatever the warehouse answers. *)
Record Env := mkEnv {
  (* extract.py: the request, its status check and the decoding of the
     body; on success the [products] array, empty when the key is missing *)
  http_get : string → nat → exn + list Row;
  (* transform.py: [datetime.now()] at the metadata step *)
  now : Z;
  (* load.py, load_to_bigquery *)
  client_error : option exn;
  create_dataset_error : option exn;
  staging_load_error : option exn;
  swap_error : option exn;
  count_query : exn + Z;
  time_str : Z → string;              (* [str] of a timestamp *)
  (* load.py, log_pipeline_run *)
  audit_client_error : option exn;
  audit_load_error : option exn;
  audit_now : string                  (* [str(datetime.now())] *)
}.

(** ** Statements: state and exceptions *)

Definition M (S A : Type) : Type := S → res A * S.

Definition ret {S A} (a : A) : M S A := λ s, (Ok a, s).

Definition bind {S A B} (m : M S A) (k : A → M S B) : M S B :=
  λ s, match m s with
       | (Ok a, s') => k a s'
       | (Raise x, s') => (Raise x, s')
       end.

Definition raise {S A} (x : raised) : M S A := λ s, (Raise x, s).

(** [try: body except Exception as e: handler e]. The state reached
    when the exception was raised is the state the handler starts in;
    [SystemExit] passes through. *)
Definition try_except {S A} (body : M S A) (handler : exn → M S A) : M S A :=
  λ s, match body s with
       | (Raise (Exception e), s') => handler e s'
       | r => r
       end.

Declare Scope stmt_scope.
Delimit Scope stmt_scope with stmt.
Notation "x <- m ;; k" := (bind m (fun x => k))
  (at level 100, m at next level, k at level 200, right associativity) : stmt_scope.
Notation "m ;; k" := (bind m (fun _ => k))
  (at level 100, k at level 200, right associativity) : stmt_scope.
Local Open Scope stmt_scope.

(** An external call that fails as the environment says. *)
Definition call {S} (outcome : option exn) : M S () :=
  match outcome with
  | None => ret ()
  | Some e => raise (Exception e)
  end.

Definition print (l : line) : M World () :=
  λ w, (Ok (), mkWorld (bq w) (stdout w ++ [l])%list).

Definition modify_bq (f : BigQuery → BigQuery) : M World () :=
  λ w, (Ok (), mkWorld (f (bq w)) (stdout w)).

Definition get_bq : M World BigQuery := λ w, (Ok (bq w), w).

(** ** etl/extract.py *)

Definition of_res {S A} (r : res A) : M S A := λ s, (r, s).

(** The two [except] clauses log and re-raise; the request itself is
    the environment's. *)
Definition extract_product_data (env : Env) (category : string) (page_size : nat)
  : res DataFrame :=
  match http_get env category page_size with
  | inl e => Raise (Exception e)
  | inr products =>
      if bool_decide (products = []) then Ok (pd.from_records [])
      else Ok (pd.from_records products)
  end.

(** ** etl/load.py *)

Definition is_datetime (v : value) : bool :=
  match v with
  | VTime _ | VNaT => true
  | _ => false
  end.

(** [df.select_dtypes(include=["datetime64[ns]"]).columns]: the columns
    that hold timestamps only. *)
Definition datetime_columns (df : DataFrame) : list string :=
  filter (λ c, forallb (λ r, is_datetime (cell r c)) (rows df) = true) (columns df).

(** [s.astype(str)] on a timestamp column. *)
Definition astype_str (env : Env) (v : value) : value :=
  match v with
  | VTime t => VStr (time_str env t)
  | VNaT => VStr "NaT"
  | v => v
  end.

(** [df_load[col] = df_load[col].astype(str)] *)
Definition stringify_column (env : Env) (df_load : DataFrame) (col : string) : DataFrame :=
  pd.setitem df_load col (map (λ r, astype_str env (cell r col)) (rows df_load)).

(** [client.load_table_from_dataframe(...).result()]: a load job that
    fails with [outcome] or writes the table as [write] says. *)
Definition load_table_from_dataframe (outcome : option exn)
    (write : BigQuery → BigQuery) : M World () :=
  call outcome;;
  modify_bq write.

(** [CREATE OR REPLACE TABLE production AS SELECT * FROM staging] *)
Definition copy_query (outcome : option exn) : M World () :=
  call outcome;;
  b <- get_bq;;
  match staging b with
  | Some t => modify_bq (λ b, mkBQ (staging b) (Some t) (pipeline_audit_log b))
  | None => raise (Exception (GoogleAPIError "Not found: staging table"))
  end.

(** The query that counts the rows of the production table. *)
Definition count_rows (env : Env) : M World Z :=
  match count_query env with
  | inl e => raise (Exception e)
  | inr total => ret total
  end.

(** The function has no [return] with a value: it returns [None]. *)
Definition load_to_bigquery (env : Env) (df : DataFrame) : M World value :=
  print (StartingLoad (pd.len df));;
  if pd.empty df then
    print EmptySkipping;;
    ret VNull
  else
    try_except
      ((* connect using service account key *)
       call (client_error env);;
       (* Step 1: create dataset if it doesn't exist *)
       try_except
         (call (create_dataset_error env);;
          print DatasetReady)
         (λ e, print (DatasetAlreadyExists e));;
       (* Step 2: load to staging table first *)
       let df_load := foldl (stringify_column env) df (datetime_columns df) in
       print LoadingToStaging;;
       load_table_from_dataframe (staging_load_error env)
         (λ b, mkBQ (Some df_load) (production b) (pipeline_audit_log b));;
       print StagingComplete;;
       (* Step 3: copy staging to production *)
       copy_query (swap_error env);;
       print ProductionUpdated;;
       (* Step 4: verify row count *)
       total <- count_rows env;;
       print (Verified total))
      (λ e,
       print (ErrorLoading e);;
       raise (Exception e));;
    ret VNull.

Definition log_pipeline_run (env : Env) (status : string) (rows_loaded : nat)
    (error : option exn) : M World value :=
  try_except
    (call (audit_client_error env);;
     let log_entry :=
       {| run_timestamp := audit_now env;
          status := status;
          rows_loaded := rows_loaded;
          error_message := exn_str <$> error;
          pipeline_version := "1.0" |} in
     load_table_from_dataframe (audit_load_error env)
       (λ b, mkBQ (staging b) (production b) (pipeline_audit_log b ++ [log_entry])%list);;
     print (AuditUpdated status))
    (λ e, print (AuditWarning e));;
  ret VNull.

(** ** etl/pipeline.py *)

(** The local variable of [run_pipeline] that the handler reads, and
    the world. *)
Record Frame := mkFrame {
  local_rows_loaded : nat;
  world : World
}.

Definition in_world {A} (m : M World A) : M Frame A :=
  λ f, let '(r, w) := m (world f) in (r, mkFrame (local_rows_loaded f) w).

Definition set_rows_loaded (n : nat) : M Frame () :=
  λ f, (Ok (), mkFrame n (world f)).

Definition get_rows_loaded : M Frame nat :=
  λ f, (Ok (local_rows_loaded f), f).

Definition run_pipeline_body (env : Env) (category : string) : M Frame value :=
  in_world (print Banner;; print PipelineStart;; print (Category category);; print Banner);;
  set_rows_loaded 0;;
  try_except
    ((* Step 1: extract *)
     in_world (print StageExtract);;
     df_raw <- of_res (extract_product_data env category 100);;
     in_world (print (RawRows (pd.len df_raw)));;
     (* Step 2: transform *)
     in_world (print StageTransform);;
     df_clean <- of_res (transform_product_data (now env) df_raw);;
     in_world (print (CleanRows (pd.len df_clean)));;
     (* Step 3: load *)
     in_world (print StageLoad);;
     in_world (load_to_bigquery env df_clean);;
     set_rows_loaded (pd.len df_clean);;
     (* Step 4: log success *)
     n <- get_rows_loaded;;
     in_world (log_pipeline_run env "SUCCESS" n None);;
     in_world (print Banner;; print PipelineComplete);;
     n <- get_rows_loaded;;
     in_world (print (TotalRows n);; print Banner))
    (λ e,
     (* log failure *)
     in_world (print (PipelineFailed e));;
     n <- get_rows_loaded;;
     in_world (log_pipeline_run env "FAILED" n (Some e));;
     raise (SystemExit 1));;
  ret VNull.

(** [run_pipeline(category)] from a world [w]: what it returns or
    raises, and the world after it. *)
Definition run_pipeline (env : Env) (category : string) (w : World)
  : res value * World :=
  let '(r, f) := run_pipeline_body env category (mkFrame 0 w) in (r, world f).

(** [python pipeline.py <category>]: the category is [sys.argv[1]] when
    there is one, ["beverages"] otherwise. *)
Definition main (env : Env) (argv : list string) (w : World) : res value * World :=
  let category :=
    match argv with
    | _ :: category :: _ => category
    | _ => "beverages"
    end in
  run_pipeline env category w.

(** The exit status of the process. *)
Definition exit_status (r : res value) : Z :=
  match r with
  | Ok _ => 0
  | Raise (SystemExit code) => code
  | Raise (Exception _) => 1
  end.

(** The audit attempts among printed lines: each call of
    [log_pipeline_run] prints exactly one of the two. *)
Definition is_audit_line (l : line) : bool :=
  match l with
  | AuditUpdated _ | AuditWarning _ => true
  | _ => false
  end.

Definition audit_sink_ok (env : Env) : bool :=
  bool_decide (audit_client_error env = None) && bool_decide (audit_load_error env = None).

Definition audit_attempts (out : list line) : nat :=
  length (List.filter is_audit_line out).

(** The frame written to staging. *)
Definition df_load (env : Env) (df : DataFrame) : DataFrame :=
  foldl (stringify_column env) df (datetime_columns df).

(** The line [log_pipeline_run] prints. *)
Definition audit_line (env : Env) (status : string) : line :=
  match audit_client_error env, audit_load_error env with
  | Some e, _ => AuditWarning e
  | None, Some e => AuditWarning e
  | None, None => AuditUpdated status
  end.

(** The handler of [run_pipeline], entered with [rows_loaded = n]. *)
Definition failed_run (env : Env) (n : nat) (e : exn) (w : World) : res value * World :=
  let w := mkWorld (bq w) (stdout w ++ [PipelineFailed e])%list in
  (Raise (SystemExit 1), snd (log_pipeline_run env "FAILED" n (Some e) w)).

Definition say (w : World) (out : list line) : World :=
  mkWorld (bq w) (stdout w ++ out)%list.

(** The same environment with another audit sink. *)
Definition with_audit_errors (env : Env) (client load : option exn) : Env :=
  {| http_get := http_get env; now := now env;
     client_error := client_error env;
     create_dataset_error := create_dataset_error env;
     staging_load_error := staging_load_error env;
     swap_error := swap_error env;
     count_query := count_query env;
     time_str := time_str env;
     audit_client_error := client;
     audit_load_error := load;
     audit_now := audit_now env |}.

(** [e] is the exception of the first stage that fails. *)
Definition stage_error (env : Env) (category : string) (e : exn) : Prop :=
  extract_product_data env category 100 = Raise (Exception e) ∨
  (∃ df_raw,
      extract_product_data env category 100 = Ok df_raw ∧
      transform_product_data (now env) df_raw = Raise (Exception e)) ∨
  (∃ df_raw df_clean w1,
      extract_product_data env category 100 = Ok df_raw ∧
      transform_product_data (now env) df_raw = Ok df_clean ∧
      fst (load_to_bigquery env df_clean w1) = Raise (Exception e)).

(** The entries one call of [log_pipeline_run] appends. *)
Definition audit_entries (env : Env) (st : string) (n : nat) (err : option exn)
  : list AuditEntry :=
  if audit_sink_ok env
  then [mkAudit (audit_now env) st n (exn_str <$> err) "1.0"]
  else [].

(** A result that is not a [SystemExit]. *)
Definition no_exit {A} (r : res A) : Prop :=
  match r with
  | Raise (SystemExit _) => False
  | _ => True
  end.

(** ** Example batches *)

Definition cola : Row :=
  {[ "code" := VStr "A1"; "product_name" := VStr "  coca cola zero ";
     "categories" := VNull; "quantity" := VStr "1l"; "stores" := VNull;
     "countries" := VStr "France"; "nutriscore_grade" := VStr " B";
     "last_modified_t" := VNum 1700000000 ]}.

(** The same code again, later in the batch. *)
Definition cola_again : Row :=
  {[ "code" := VStr "A1"; "product_name" := VStr "other name" ]}.

(** A record with nothing but its code. *)
Definition bare : Row := {[ "code" := VStr "A2" ]}.

Definition example_records : list Row := [cola; cola_again; bare].

Definition example_out : DataFrame :=
  match transform_product_data 7 (pd.from_records example_records) with
  | Ok out => out
  | Raise _ => mkDF [] []
  end.

(** A record whose code is null and whose product name is a number. *)
Definition odd : Row :=
  {[ "code" := VNull; "product_name" := VNum 7; "categories" := VStr "drinks";
     "quantity" := VStr "1l"; "stores" := VStr "Lidl";
     "countries" := VStr "France"; "nutriscore_grade" := VStr "a" ]}.

(** Two fields only: no record of the batch has categories, stores,
    countries, grade or quantity. *)
Definition sparse : Row :=
  {[ "code" := VStr "A1"; "product_name" := VStr "Cola" ]}.

(** The two records of [example_out]. *)
Definition cola_out : Row := default ∅ (rows example_out !! 0%nat).
Definition bare_out : Row := default ∅ (rows example_out !! 1%nat).

(** ** Example runs *)

(** Every call succeeds except the creation of the dataset; the count
    read back is 5. *)
Definition env_ok : Env :=
  {| http_get := λ _ _, inr example_records; now := 7;
     client_error := None;
     create_dataset_error := Some (GoogleAPIError "Access Denied");
     staging_load_error := None; swap_error := None; count_query := inr 5;
     time_str := λ _, "2023-11-14 22:13:20";
     audit_client_error := None; audit_load_error := None;
     audit_now := "2026-01-01 00:00:00" |}.

(** The same with an audit sink that refuses the connection. *)
Definition env_no_audit : Env :=
  with_audit_errors env_ok (Some (GoogleAPIError "Forbidden")) None.

(** The same with a staging write that fails. *)
Definition env_no_staging : Env :=
  {| http_get := http_get env_ok; now := 7;
     client_error := None; create_dataset_error := None;
     staging_load_error := Some (GoogleAPIError "Bad Request");
     swap_error := None; count_query := inr 5;
     time_str := time_str env_ok;
     audit_client_error := None; audit_load_error := None;
     audit_now := audit_now env_ok |}.

(** A warehouse whose production table holds an earlier batch. *)
Definition old_batch : DataFrame := pd.from_records [bare].
Definition world_old : World :=
  mkWorld (mkBQ (Some old_batch) (Some old_batch) []) [].


(** ** What the transformer's output looks like *)

(** The columns of the frame the transformer returns for a non-empty
    frame with columns [cols]. *)
Definition output_columns (cols : list string) : list string :=
  let present := filter (λ col, col ∈ cols) columns_needed in
  ((if decide ("last_modified_t" ∈ cols)
    then filter (λ col, col ≠ "last_modified_t") present ++ ["last_modified_date"]
    else present)
   ++ ["extracted_at"; "pipeline_version"; "quality_flag"])%list.

(** The values of the [code] column. *)
Definition codes (df : DataFrame) : list value :=
  map (λ r, cell r "code") (rows df).

(** [stringify_column] on one record. *)
Definition stringify_cell (env : Env) (r : Row) (col : string) : Row :=
  <[col := astype_str env (cell r col)]> r.

(** ** More example runs *)

(** Staging is written, then the swap query fails. *)
Definition env_no_swap : Env :=
  {| http_get := http_get env_ok; now := 7;
     client_error := None; create_dataset_error := None;
     staging_load_error := None;
     swap_error := Some (GoogleAPIError "Quota exceeded");
     count_query := inr 2;
     time_str := time_str env_ok;
     audit_client_error := None; audit_load_error := None;
     audit_now := audit_now env_ok |}.

(** The swap is done, then the count query fails. *)
Definition env_no_count : Env :=
  {| http_get := http_get env_ok; now := 7;
     client_error := None; create_dataset_error := None;
     staging_load_error := None; swap_error := None;
     count_query := inl (GoogleAPIError "Deadline exceeded");
     time_str := time_str env_ok;
     audit_client_error := None; audit_load_error := None;
     audit_now := audit_now env_ok |}.

(** The source answers with no product, and the warehouse is out of
    reach for the loader. *)
Definition env_no_products : Env :=
  {| http_get := λ _ _, inr []; now := 7;
     client_error := Some (GoogleAPIError "Forbidden");
     create_dataset_error := None;
     staging_load_error := None; swap_error := None; count_query := inr 0;
     time_str := time_str env_ok;
     audit_client_error := None; audit_load_error := None;
     audit_now := audit_now env_ok |}.

(** The request to the source times out. *)
Definition env_no_source : Env :=
  {| http_get := λ _ _, inl RequestTimeout; now := 7;
     client_error := None; create_dataset_error := None;
     staging_load_error := None; swap_error := None; count_query := inr 2;
     time_str := time_str env_ok;
     audit_client_error := None; audit_load_error := None;
     audit_now := audit_now env_ok |}.

(** ** dags/etl_dag.py *)

(** The three task callables. The scheduler (the daily schedule, the
    retries, the order [extract >> transform >> load]) is Airflow's and
    is not modelled: a theorem about several tasks says from which
    state each one starts. *)

(** The line each task prints when it is done. *)
Inductive task_line :=
  | RowsExtracted (n : nat)
  | RowsTransformed (n : nat)
  | RowsLoaded (n : nat).

(** What a task instance works on: the XCom store, a map from task id
    and key to a JSON text; the lines the tasks printed themselves; and
    the world of the ETL functions. *)
Record Airflow (Json : Type) := mkAirflow {
  xcom : gmap (string * string) Json;
  task_log : list task_line;
  dag_world : World
}.
Arguments mkAirflow {Json} _ _ _.
Arguments xcom {Json} _.
Arguments task_log {Json} _.
Arguments dag_world {Json} _.

Definition in_dag_world {Json A} (m : M World A) : M (Airflow Json) A :=
  λ a, let '(r, w) := m (dag_world a) in (r, mkAirflow (xcom a) (task_log a) w).

(** [context['ti'].xcom_push(key=key, value=value)] in the task [ti]. *)
Definition xcom_push {Json} (ti key : string) (value : Json) : M (Airflow Json) () :=
  λ a, (Ok (), mkAirflow (<[(ti, key) := value]> (xcom a)) (task_log a) (dag_world a)).

(** [context['ti'].xcom_pull(key=key, task_ids=task_ids)]: [None] when
    nothing was pushed. *)
Definition xcom_pull {Json} (key task_ids : string) : M (Airflow Json) (option Json) :=
  λ a, (Ok (xcom a !! (task_ids, key)), a).

Definition task_print {Json} (l : task_line) : M (Airflow Json) () :=
  λ a, (Ok (), mkAirflow (xcom a) (task_log a ++ [l])%list (dag_world a)).

Section etl_dag.
Context {Json : Type}.
(** [df.to_json()] and [pd.read_json(text)] are pandas's: any two
    functions, either of which may raise. *)
Variable to_json : DataFrame → res Json.
Variable read_json : option Json → res DataFrame.
Variable env : Env.

(** [ti] is the id of the task that runs the callable. *)
Definition extract_task (ti : string) : M (Airflow Json) value :=
  df <- of_res (extract_product_data env "beverages" 100);;
  (* store as JSON to pass between tasks *)
  raw_json <- of_res (to_json df);;
  xcom_push ti "raw_data" raw_json;;
  task_print (RowsExtracted (pd.len df));;
  ret VNull.

Definition transform_task (ti : string) : M (Airflow Json) value :=
  raw_json <- xcom_pull "raw_data" "extract";;
  df_raw <- of_res (read_json raw_json);;
  df_clean <- of_res (transform_product_data (now env) df_raw);;
  clean_json <- of_res (to_json df_clean);;
  xcom_push ti "clean_data" clean_json;;
  task_print (RowsTransformed (pd.len df_clean));;
  ret VNull.

Definition load_task (ti : string) : M (Airflow Json) value :=
  clean_json <- xcom_pull "clean_data" "transform";;
  df_clean <- of_res (read_json clean_json);;
  in_dag_world (load_to_bigquery env df_clean);;
  in_dag_world (log_pipeline_run env "SUCCESS" (pd.len df_clean) None);;
  task_print (RowsLoaded (pd.len df_clean));;
  ret VNull.

End etl_dag.

(** A codec that loses nothing, for the examples: the text of a frame
    is the frame itself, and reading nothing fails. *)
Definition to_json_exact (df : DataFrame) : res DataFrame := Ok df.
Definition read_json_exact (text : option DataFrame) : res DataFrame :=
  match text with
  | Some df => Ok df
  | None => Raise (Exception (AttributeError "nothing to read"))
  end.

(** An Airflow state with an empty XCom store. *)
Definition airflow_old : Airflow DataFrame := mkAirflow ∅ [] world_old.

(** ** Words for the statements about the transformer *)

(** A key that pandas compares exactly, whatever else its column
    holds: a string, or an integer that a float holds exactly (a column
    of integers with a null in it is a column of floats). *)
Definition exact_key (v : value) : bool :=
  match v with
  | VStr _ => true
  | VNum n => Z.abs n <? 2 ^ 53
  | _ => false
  end.

(** [l] without the values that occur earlier in [l] or in [seen]:
    what "first seen wins" keeps. *)
Fixpoint first_occurrences (seen l : list value) : list value :=
  match l with
  | [] => []
  | v :: l' =>
      if decide (v ∈ seen) then first_occurrences (v :: seen) l'
      else v :: first_occurrences (v :: seen) l'
  end.

(** A second count that is a timestamp: an integer within the range of
    a nanosecond timestamp. *)
Definition is_epoch_seconds (v : value) : bool :=
  match v with
  | VNum n => (-9223372036 <=? n) && (n <=? 9223372036)
  | _ => false
  end.

(** Two records without any field. *)
Definition fieldless_records : list Row := [∅; ∅].

(** Two results that end the same way: both return, or both raise the
    same thing. *)
Definition same_outcome {A} (r1 r2 : res A) : Prop :=
  match r1, r2 with
  | Ok _, Ok _ => True
  | Raise x, Raise y => x = y
  | _, _ => False
  end.

(** Two tables with the same columns whose records differ at most in
    the field [c]. *)
Definition same_but (c : string) (t1 t2 : DataFrame) : Prop :=
  columns t1 = columns t2 ∧
  Forall2 (λ r1 r2 : Row, ∀ k, k ≠ c → r1 !! k = r2 !! k) (rows t1) (rows t2).

(** [env_ok] one second later. *)
Definition env_later : Env :=
  {| http_get := http_get env_ok; now := 8;
     client_error := None;
     create_dataset_error := None;
     staging_load_error := None; swap_error := None; count_query := inr 5;
     time_str := time_str env_ok;
     audit_client_error := None; audit_load_error := None;
     audit_now := "2026-01-01 00:00:01" |}.

(** * Proofs *)

(** *** Lemmas on the frame operations *)

Lemma getitem_Ok df c s :
  pd.getitem df c = Ok s → c ∈ columns df ∧ s = map (λ r, cell r c) (rows df).
Proof.
  unfold pd.getitem. case_decide; [|discriminate]. intros [= <-]. done.
Qed.

Lemma zip_with_map_self {A B C} (f : A → B → C) (g : A → B) (l : list A) :
  zip_with f l (map g l) = map (λ x, f x (g x)) l.
Proof. induction l as [|x l IH]; simpl; [done|]. by rewrite IH. Qed.

Lemma zip_with_map_map {A B C D} (f : B → C → D) (g : A → B) (h : A → C) l :
  zip_with f (map g l) (map h l) = map (λ x, f (g x) (h x)) l.
Proof. induction l as [|x l IH]; simpl; [done|]. by rewrite IH. Qed.

Lemma rows_setitem_map df c (g : Row → value) :
  rows (pd.setitem df c (map g (rows df))) = map (λ r, <[c := g r]> r) (rows df).
Proof. simpl. apply zip_with_map_self. Qed.

Lemma str_Ok s s' : pd.str s = Ok s' → s' = s.
Proof. unfold pd.str. destruct (_ || _); [|discriminate]. by intros [= <-]. Qed.

Lemma drop_duplicates_keep_first col seen (l : list Row) :
  fst <$> filter (λ rb, snd rb = false)
            (zip l (pd.duplicated_from seen (map (λ r, cell r col) l)))
  = keep_first col seen l.
Proof.
  revert seen. induction l as [|r l IH]; intros seen; simpl; [done|].
  rewrite filter_cons. simpl.
  destruct (decide (cell r col ∈ seen)) as [Hin|Hin].
  - rewrite bool_decide_eq_true_2 by done. rewrite decide_False by done. apply IH.
  - rewrite bool_decide_eq_false_2 by done. rewrite decide_True by done.
    simpl. by rewrite IH.
Qed.

Lemma bind_Ok {A B} (r : res A) (k : A → res B) b :
  res_bind r k = Ok b → ∃ a, r = Ok a ∧ k a = Ok b.
Proof. destruct r as [a|]; simpl; [eauto | discriminate]. Qed.

Lemma bind_getitem_Ok {B} df c (k : Series → res B) b :
  res_bind (pd.getitem df c) k = Ok b →
  c ∈ columns df ∧ k (map (λ r, cell r c) (rows df)) = Ok b.
Proof.
  intros (s & Hs & Hk)%bind_Ok. apply getitem_Ok in Hs as [? ->]. done.
Qed.

Lemma bind_str_method_Ok {B} (f : string → string) s (k : Series → res B) b :
  res_bind (s0 <~ pd.str s; Ok (map (pd.str_method f) s0)) k = Ok b →
  pd.str s = Ok s ∧ k (map (pd.str_method f) s) = Ok b.
Proof.
  intros (s1 & (s0 & Hs & [= <-])%bind_Ok & Hk)%bind_Ok.
  pose proof (str_Ok _ _ Hs) as ->. done.
Qed.

Lemma columns_setitem_in df c s :
  c ∈ columns df → columns (pd.setitem df c s) = columns df.
Proof. intros. simpl. by rewrite decide_True. Qed.

Lemma getitems_present df :
  pd.getitems df (filter (λ col, col ∈ columns df) columns_needed)
  = Ok (mkDF (filter (λ col, col ∈ columns df) columns_needed)
             (map (pd.reindex (filter (λ col, col ∈ columns df) columns_needed))
                  (rows df))).
Proof.
  unfold pd.getitems.
  replace (filter (λ c, c ∉ columns df) (filter (λ col, col ∈ columns df) columns_needed))
    with (@nil string); [done|].
  symmetry. generalize columns_needed. intros l.
  induction l as [|c l IH]; [done|].
  rewrite (filter_cons (λ col, col ∈ columns df)).
  case_decide; [|done]. rewrite filter_cons. by rewrite decide_False by tauto.
Qed.

Lemma rows_fill df c d :
  rows (pd.setitem df c (pd.fillna (map (λ r, cell r c) (rows df)) (VStr d)))
  = map (fill c d) (rows df).
Proof.
  unfold pd.fillna. rewrite map_map.
  by rewrite (rows_setitem_map df c (λ r, if isna (cell r c) then VStr d else cell r c)).
Qed.

Lemma rows_normalize df c f :
  rows (pd.setitem df c
          (map (pd.str_method f)
               (map (pd.str_method Str.strip) (map (λ r, cell r c) (rows df)))))
  = map (normalize c f) (rows df).
Proof.
  rewrite !map_map.
  by rewrite (rows_setitem_map df c
                (λ r, pd.str_method f (pd.str_method Str.strip (cell r c)))).
Qed.

(** Step 5 of the transformer, on rows. *)
Lemma convert_timestamp_rows df df' :
  (if decide ("last_modified_t" ∈ columns df) then
     s <~ pd.getitem df "last_modified_t";
     let df := pd.setitem df "last_modified_t" (pd.to_numeric s) in
     s <~ pd.getitem df "last_modified_t";
     let df := pd.setitem df "last_modified_date" (pd.to_datetime s) in
     pd.drop_column df "last_modified_t"
   else Ok df) = Ok df' →
  rows df' = map (λ r, if bool_decide ("last_modified_t" ∈ columns df)
                       then convert_timestamp r else r) (rows df).
Proof.
  case_decide as Hts.
  - rewrite bool_decide_eq_true_2 by done.
    intros [_ H]%bind_getitem_Ok. cbv beta zeta in H.
    apply bind_getitem_Ok in H as [_ H].
    unfold pd.drop_column in H. case_decide; [|discriminate].
    injection H as <-. cbn [rows].
    unfold pd.to_datetime, pd.to_numeric. rewrite !map_map.
    rewrite (zip_with_map_self _ (λ r, pd.to_numeric_value (cell r "last_modified_t"))).
    rewrite !map_map.
    rewrite zip_with_map_map, map_map. done.
  - rewrite bool_decide_eq_false_2 by done. intros [= <-]. by rewrite map_id.
Qed.

(** Steps 6 and 7 of the transformer, on rows. *)
Lemma stamp_flag_rows now df out :
  (let df := pd.setitem_scalar df "extracted_at" (VTime now) in
   let df := pd.setitem_scalar df "pipeline_version" (VStr "1.0") in
   let df := pd.setitem_scalar df "quality_flag" (VStr "ok") in
   m <~ (s <~ pd.getitem df "product_name";
         Ok (pd.eq_scalar s (VStr "Unknown Product")));
   let df := pd.loc_set df m "quality_flag" (VStr "missing_name") in
   m <~ (s <~ pd.getitem df "nutriscore_grade";
         Ok (pd.eq_scalar s (VStr "not_rated")));
   let df := pd.loc_set df m "quality_flag" (VStr "missing_nutriscore") in
   Ok df) = Ok out →
  rows out = map (λ r, flag (stamp now r)) (rows df).
Proof.
  cbv zeta.
  intros (m1 & [_ [= <-]]%bind_getitem_Ok & H)%bind_Ok.
  apply bind_Ok in H as (m2 & [_ [= <-]]%bind_getitem_Ok & [= <-]).
  unfold pd.eq_scalar. cbn [rows pd.loc_set pd.setitem_scalar].
  rewrite !map_map.
  rewrite (zip_with_map_map (λ r (b : bool), if b then _ else r)).
  rewrite !map_map.
  rewrite (zip_with_map_map (λ r (b : bool), if b then _ else r)).
  done.
Qed.

(** One [df[c] = g(df[c])] statement at the head of [H], for a frame
    [D] with columns [HC] and rows [HR]; [lem] gives the rows after it. *)
Ltac assign_step H HC HR lem :=
  let Hin := fresh "Hin" in
  let d := fresh "df" in
  let HC' := fresh "HC" in
  let HR' := fresh "HR" in
  apply bind_getitem_Ok in H as [Hin H]; cbv beta in H;
  repeat (apply bind_str_method_Ok in H as [_ H]; cbv beta in H);
  lazymatch type of HC with
  | columns ?D = _ =>
      lazymatch type of H with
      | context [pd.setitem D ?c ?S] =>
          set (d := pd.setitem D c S) in H;
          assert (HC' : columns d = columns D)
            by (apply columns_setitem_in; exact Hin);
          assert (HR' : rows d = _) by (apply lem);
          rewrite HC in HC', Hin; rewrite HR, map_map in HR';
          clearbody d; clear HC HR;
          rename HC' into HC; rename HR' into HR
      end
  end.

Lemma transform_rows now df out :
  pd.empty df = false →
  transform_product_data now df = Ok out →
  let cp := filter (λ col, col ∈ columns df) columns_needed in
  (∀ c, c ∈ ["code"; "product_name"; "categories"; "stores"; "countries";
             "nutriscore_grade"; "quantity"] → c ∈ columns df) ∧
  rows out = map (clean_row (bool_decide ("last_modified_t" ∈ columns df)) now)
                 (keep_first "code" [] (map (pd.reindex cp) (rows df))).
Proof.
  intros Hne H cp. unfold transform_product_data in H. rewrite Hne in H.
  fold cp in H. rewrite getitems_present in H. fold cp in H.
  unfold res_bind at 1 in H.
  apply bind_Ok in H as (df2 & Hdd & H).
  unfold pd.drop_duplicates in Hdd.
  destruct (decide ("code" ∈ columns {| columns := cp; rows := map (pd.reindex cp) (rows df) |}))
    as [Hcode|]; [|discriminate]. injection Hdd as <-.
  unfold pd.duplicated in H. cbn [rows columns] in H, Hcode.
  rewrite drop_duplicates_keep_first in H.
  set (base := keep_first "code" [] (map (pd.reindex cp) (rows df))) in *.
  set (df2 := {| columns := cp; rows := base |}) in H.
  assert (HC : columns df2 = cp) by done.
  assert (HR : rows df2 = map (λ r, r) base) by (by rewrite map_id).
  clearbody df2.
  assign_step H HC HR rows_fill.
  assign_step H HC HR rows_fill.
  assign_step H HC HR rows_fill.
  assign_step H HC HR rows_fill.
  assign_step H HC HR rows_fill.
  assign_step H HC HR rows_fill.
  assign_step H HC HR rows_normalize.
  assign_step H HC HR rows_normalize.
  apply bind_Ok in H as (df9 & H5 & H).
  apply convert_timestamp_rows in H5. apply stamp_flag_rows in H.
  assert (Hcp : ∀ c, c ∈ cp → c ∈ columns df)
    by (intros c Hc; by apply list_elem_of_filter in Hc as [? _]).
  split.
  - intros c Hc. apply Hcp.
    repeat (apply elem_of_cons in Hc as [->|Hc]; [assumption|]).
    by apply elem_of_nil in Hc.
  - rewrite H, H5, HR, !map_map, HC. apply map_ext. intros r.
    unfold clean_row, fill_defaults.
    destruct (decide ("last_modified_t" ∈ columns df)) as [Hts|Hts].
    + rewrite !bool_decide_eq_true_2; [done..|].
      apply list_elem_of_filter. split; [done|]. unfold columns_needed.
      do 7 apply list_elem_of_further. apply list_elem_of_here.
    + rewrite !bool_decide_eq_false_2; [done..|]. intros Hc. by apply Hts, Hcp.
Qed.

(** *** Lookups in a cleaned row *)

Lemma lookup_fill_ne c d r k : c ≠ k → fill c d r !! k = r !! k.
Proof. intros. unfold fill. by rewrite lookup_insert_ne. Qed.

Lemma lookup_fill_eq c d r :
  fill c d r !! c = Some (if isna (cell r c) then VStr d else cell r c).
Proof. unfold fill. by rewrite lookup_insert_eq. Qed.

Lemma lookup_normalize_ne c f r k : c ≠ k → normalize c f r !! k = r !! k.
Proof. intros. unfold normalize. by rewrite lookup_insert_ne. Qed.

Lemma lookup_normalize_eq c f r :
  normalize c f r !! c = Some (pd.str_method f (pd.str_method Str.strip (cell r c))).
Proof. unfold normalize. by rewrite lookup_insert_eq. Qed.

Lemma lookup_convert_timestamp_ne r k :
  k ≠ "last_modified_t" → k ≠ "last_modified_date" →
  convert_timestamp r !! k = r !! k.
Proof.
  intros. unfold convert_timestamp.
  rewrite lookup_delete_ne by done. by rewrite !lookup_insert_ne by done.
Qed.

Lemma lookup_stamp_ne now r k :
  k ≠ "extracted_at" → k ≠ "pipeline_version" → stamp now r !! k = r !! k.
Proof. intros. unfold stamp. by rewrite !lookup_insert_ne by done. Qed.

Lemma lookup_flag_ne r k : k ≠ "quality_flag" → flag r !! k = r !! k.
Proof.
  intros. unfold flag. repeat case_bool_decide; by rewrite !lookup_insert_ne by done.
Qed.

Lemma lookup_flag_eq r :
  flag r !! "quality_flag" =
  Some (VStr (if bool_decide (cell r "nutriscore_grade" = VStr "not_rated")
              then "missing_nutriscore"
              else if bool_decide (cell r "product_name" = VStr "Unknown Product")
                   then "missing_name" else "ok")).
Proof.
  unfold flag, cell. rewrite !lookup_insert_ne by done.
  destruct (bool_decide (default VNull (r !! "product_name") = _)); simpl;
    rewrite ?lookup_insert_ne by done;
    destruct (bool_decide (default VNull (r !! "nutriscore_grade") = _));
    by rewrite ?lookup_insert_eq.
Qed.

(** Fields the later steps do not write: the cleaned row has what the
    defaults step left there. *)
Lemma lookup_clean_row_other b now r k :
  k ∈ ["code"; "categories"; "stores"; "countries"; "quantity"] →
  clean_row b now r !! k = fill_defaults r !! k.
Proof.
  intros Hk. unfold clean_row. cbv zeta.
  repeat (apply elem_of_cons in Hk as [->|Hk]);
    [| | | | | by apply elem_of_nil in Hk];
    (rewrite lookup_flag_ne, lookup_stamp_ne by done;
     destruct b; rewrite ?lookup_convert_timestamp_ne by done;
     by rewrite !lookup_normalize_ne by done).
Qed.

Lemma lookup_clean_row_code b now r : clean_row b now r !! "code" = r !! "code".
Proof.
  rewrite lookup_clean_row_other by (apply list_elem_of_here).
  unfold fill_defaults. by rewrite !lookup_fill_ne by done.
Qed.

Lemma lookup_reindex cols r c :
  pd.reindex cols r !! c = if decide (c ∈ cols) then Some (cell r c) else None.
Proof.
  unfold pd.reindex. induction cols as [|c' cols IH].
  - rewrite decide_False by apply not_elem_of_nil. apply lookup_empty.
  - cbn [map list_to_map foldr uncurry]. destruct (decide (c' = c)) as [->|Hne].
    + rewrite decide_True by apply list_elem_of_here. apply lookup_insert_eq.
    + rewrite lookup_insert_ne by done. rewrite IH.
      destruct (decide (c ∈ cols)).
      * by rewrite decide_True by (by apply list_elem_of_further).
      * rewrite decide_False; [done|]. intros [?|?]%elem_of_cons; congruence.
Qed.

Lemma cell_reindex cols r c : c ∈ cols → cell (pd.reindex cols r) c = cell r c.
Proof. intros. unfold cell at 1. rewrite lookup_reindex. by rewrite decide_True. Qed.

Lemma map_fmap {A B} (f : A → B) (l : list A) : map f l = f <$> l.
Proof. reflexivity. Qed.

(** *** Rows kept by [drop_duplicates] *)

Section keep_first.
Variable col : string.

Lemma keep_first_elem seen l r :
  r ∈ keep_first col seen l → r ∈ l ∧ cell r col ∉ seen.
Proof.
  revert seen. induction l as [|x l IH]; intros seen; simpl.
  - by intros ?%elem_of_nil.
  - case_decide as Hx.
    + intros [Hl Hs]%IH. split; [by apply list_elem_of_further|].
      by apply not_elem_of_cons in Hs as [_ ?].
    + intros [->|[Hl Hs]%IH]%elem_of_cons.
      * split; [apply list_elem_of_here | done].
      * split; [by apply list_elem_of_further|].
        by apply not_elem_of_cons in Hs as [_ ?].
Qed.

Lemma keep_first_map seen (g : Row → Row) l :
  (∀ r, cell (g r) col = cell r col) →
  keep_first col seen (map g l) = map g (keep_first col seen l).
Proof.
  intros Hg. revert seen. induction l as [|x l IH]; intros seen; simpl; [done|].
  rewrite Hg. case_decide; by rewrite IH.
Qed.

Lemma filter_none {A} (P : A → Prop) `{!∀ x, Decision (P x)} (l : list A) :
  (∀ x, x ∈ l → ¬ P x) → filter P l = [].
Proof.
  induction l as [|x l IH]; intros Hl; [done|].
  rewrite filter_cons_False by (apply Hl, list_elem_of_here).
  apply IH. intros y Hy. by apply Hl, list_elem_of_further.
Qed.

(** Among the kept rows exactly one has a given key of the list, and
    it is the first row of the list with that key. *)
Lemma keep_first_filter seen l r0 :
  r0 ∈ l → cell r0 col ∉ seen →
  ∃ first,
    List.find (λ r, bool_decide (cell r col = cell r0 col)) l = Some first ∧
    filter (λ k, cell k col = cell r0 col) (keep_first col seen l) = [first].
Proof.
  revert seen. induction l as [|x l IH]; intros seen Hin Hseen.
  - by apply elem_of_nil in Hin.
  - simpl. destruct (decide (cell x col = cell r0 col)) as [Heq|Hne].
    + rewrite bool_decide_eq_true_2 by done. exists x. split; [done|].
      rewrite decide_False by (by rewrite Heq).
      rewrite filter_cons_True by done. f_equal.
      apply filter_none. intros y [_ Hy]%keep_first_elem Hc.
      apply Hy. rewrite Hc, Heq. apply list_elem_of_here.
    + rewrite bool_decide_eq_false_2 by done.
      apply elem_of_cons in Hin as [->|Hin]; [done|].
      destruct (IH (cell x col :: seen) Hin) as (first & Hfind & Hfilter).
      { intros [?|?]%elem_of_cons; [congruence | done]. }
      exists first. split; [done|].
      case_decide; [done|]. by rewrite filter_cons_False.
Qed.

(** A kept row is the first row of the list with its key. *)
Lemma keep_first_is_first seen l r :
  r ∈ keep_first col seen l →
  List.find (λ r', bool_decide (cell r' col = cell r col)) l = Some r.
Proof.
  intros Hr. pose proof (keep_first_elem _ _ _ Hr) as [Hl Hseen].
  destruct (keep_first_filter seen l r Hl Hseen) as (first & Hfind & Hfilter).
  assert (Hin : r ∈ filter (λ k, cell k col = cell r col) (keep_first col seen l))
    by (by apply list_elem_of_filter).
  rewrite Hfilter in Hin. apply list_elem_of_singleton in Hin. by subst.
Qed.

End keep_first.



(** *** Frames built from records *)

Lemma elem_of_map {A B} (f : A → B) (l : list A) y :
  y ∈ map f l ↔ ∃ x, y = f x ∧ x ∈ l.
Proof. rewrite map_fmap. apply list_elem_of_fmap. Qed.

Lemma from_records_lookup records r c :
  r ∈ rows (pd.from_records records) →
  r !! c = if decide (c ∈ columns (pd.from_records records))
           then Some (cell r c) else None.
Proof.
  simpl. intros (rec & -> & _)%elem_of_map.
  unfold cell at 1. rewrite lookup_reindex. by case_decide.
Qed.



(** ** The transformer on a non-empty frame *)

Lemma transform_clean_records now df out :
  pd.empty df = false →
  transform_product_data now df = Ok out →
  (∀ c, c ∈ ["code"; "product_name"; "categories"; "stores"; "countries";
             "nutriscore_grade"; "quantity"] → c ∈ columns df) ∧
  rows out = map (clean_record (columns df) now) (keep_first "code" [] (rows df)).
Proof.
  intros Hne H. destruct (transform_rows _ _ _ Hne H) as [Hcols Hrows].
  split; [done|]. rewrite Hrows, keep_first_map, map_map; [done|].
  intros r. apply cell_reindex. apply list_elem_of_filter. split.
  - apply Hcols, list_elem_of_here.
  - apply list_elem_of_here.
Qed.

Lemma cell_fill_ne c d r k : c ≠ k → cell (fill c d r) k = cell r k.
Proof. intros. unfold cell. by rewrite lookup_fill_ne. Qed.

Lemma lookup_fill_defaults r f d :
  (f, d) ∈ defaults →
  fill_defaults r !! f = Some (if isna (cell r f) then VStr d else cell r f).
Proof.
  intros Hf. unfold fill_defaults.
  repeat (apply elem_of_cons in Hf as [[= -> ->]|Hf]);
    [| | | | | | by apply elem_of_nil in Hf];
    rewrite ?lookup_fill_ne by done; rewrite lookup_fill_eq;
    by rewrite ?cell_fill_ne by done.
Qed.

Lemma lookup_clean_row_name b now r :
  clean_row b now r !! "product_name"
  = Some (pd.str_method Str.title (pd.str_method Str.strip
            (if isna (cell r "product_name") then VStr "Unknown Product"
             else cell r "product_name"))).
Proof.
  unfold clean_row. cbv zeta.
  rewrite lookup_flag_ne, lookup_stamp_ne by done.
  assert (∀ r', (if b then convert_timestamp r' else r') !! "product_name"
                = r' !! "product_name") as ->
    by (intros; destruct b; by rewrite ?lookup_convert_timestamp_ne by done).
  rewrite lookup_normalize_ne by done. rewrite lookup_normalize_eq.
  unfold cell at 1.
  by rewrite (lookup_fill_defaults r "product_name" "Unknown Product")
    by apply list_elem_of_here.
Qed.

Lemma lookup_clean_row_grade b now r :
  clean_row b now r !! "nutriscore_grade"
  = Some (pd.str_method Str.lower (pd.str_method Str.strip
            (if isna (cell r "nutriscore_grade") then VStr "not_rated"
             else cell r "nutriscore_grade"))).
Proof.
  unfold clean_row. cbv zeta.
  rewrite lookup_flag_ne, lookup_stamp_ne by done.
  assert (∀ r', (if b then convert_timestamp r' else r') !! "nutriscore_grade"
                = r' !! "nutriscore_grade") as ->
    by (intros; destruct b; by rewrite ?lookup_convert_timestamp_ne by done).
  rewrite lookup_normalize_eq. unfold cell at 1.
  rewrite lookup_normalize_ne by done.
  rewrite (lookup_fill_defaults r "nutriscore_grade" "not_rated"); [done|].
  do 4 apply list_elem_of_further. apply list_elem_of_here.
Qed.



(** *** The transformer returns on batches of text *)

Lemma getitem_in df c :
  c ∈ columns df → pd.getitem df c = Ok (map (λ r, cell r c) (rows df)).
Proof. intros. unfold pd.getitem. by rewrite decide_True. Qed.

Lemma str_has_string s : existsb is_str s = true → pd.str s = Ok s.
Proof. intros H. unfold pd.str. by rewrite H. Qed.

Lemma is_str_str_method f v : is_str (pd.str_method f v) = is_str v.
Proof. by destruct v. Qed.

Lemma cell_fill_eq c d r :
  cell (fill c d r) c = if isna (cell r c) then VStr d else cell r c.
Proof. unfold cell at 1. by rewrite lookup_fill_eq. Qed.

Lemma is_str_filled c d r :
  is_text (cell r c) = true → is_str (cell (fill c d r) c) = true.
Proof. rewrite cell_fill_eq. unfold is_text. by destruct (cell r c). Qed.

Lemma cell_normalize_ne c f r k : c ≠ k → cell (normalize c f r) k = cell r k.
Proof. intros. unfold cell. by rewrite lookup_normalize_ne. Qed.

Lemma keep_first_head col (l : list Row) :
  l ≠ [] → ∃ k l', keep_first col [] l = k :: l'.
Proof.
  destruct l as [|r l]; [done|]. intros _. cbn [keep_first].
  destruct (decide (cell r col ∈ [])) as [Hin|_]; [by apply elem_of_nil in Hin | eauto].
Qed.

Lemma elem_columns_setitem df c s k :
  k ∈ columns df → k ∈ columns (pd.setitem df c s).
Proof. intros. simpl. case_decide; [done|]. apply elem_of_app. by left. Qed.

Lemma elem_columns_setitem_scalar df c v k :
  k ∈ columns df → k ∈ columns (pd.setitem_scalar df c v).
Proof. intros. simpl. case_decide; [done|]. apply elem_of_app. by left. Qed.

(** Steps 6 and 7 return when both flagged columns are there. *)
Lemma stamp_flag_returns now df :
  "product_name" ∈ columns df → "nutriscore_grade" ∈ columns df →
  ∃ out,
    (let df := pd.setitem_scalar df "extracted_at" (VTime now) in
     let df := pd.setitem_scalar df "pipeline_version" (VStr "1.0") in
     let df := pd.setitem_scalar df "quality_flag" (VStr "ok") in
     m <~ (s <~ pd.getitem df "product_name";
           Ok (pd.eq_scalar s (VStr "Unknown Product")));
     let df := pd.loc_set df m "quality_flag" (VStr "missing_name") in
     m <~ (s <~ pd.getitem df "nutriscore_grade";
           Ok (pd.eq_scalar s (VStr "not_rated")));
     let df := pd.loc_set df m "quality_flag" (VStr "missing_nutriscore") in
     Ok df) = Ok out.
Proof.
  intros Hname Hgrade. cbv zeta.
  rewrite getitem_in by (by do 3 apply elem_columns_setitem_scalar).
  cbn [res_bind].
  rewrite getitem_in
    by (cbn [columns pd.loc_set]; by do 3 apply elem_columns_setitem_scalar).
  cbn [res_bind]. by eexists.
Qed.

(** [df[c]] succeeds on the frame [D] whose columns [HC] gives. *)
Ltac fwd_getitem D c HC Hcp Hin :=
  assert (Hin : c ∈ columns D)
    by (rewrite HC; apply Hcp;
        repeat first [apply list_elem_of_here | apply list_elem_of_further]);
  rewrite (getitem_in D c Hin); cbn [res_bind].

(** Names the frame after the assignment [D[c] = S] as [d]. *)
Ltac fwd_setitem D d Hin HC HR lem :=
  lazymatch goal with
  | |- context [pd.setitem D ?c ?S] =>
      let HC' := fresh "HC" in
      let HR' := fresh "HR" in
      set (d := pd.setitem D c S);
      assert (HC' : columns d = columns D)
        by (apply columns_setitem_in; exact Hin);
      assert (HR' : rows d = _) by (apply lem);
      rewrite HC in HC'; rewrite HR, map_map in HR';
      clearbody d; clear HC HR Hin;
      rename HC' into HC; rename HR' into HR
  end.

Lemma transform_returns_on_text now df :
  pd.empty df = false →
  (∀ c, c ∈ ["code"; "product_name"; "categories"; "stores"; "countries";
             "nutriscore_grade"; "quantity"] → c ∈ columns df) →
  (∀ r, r ∈ rows df →
        is_text (cell r "product_name") = true ∧
        is_text (cell r "nutriscore_grade") = true) →
  ∃ out, transform_product_data now df = Ok out.
Proof.
  intros Hne Hcols Htext. unfold transform_product_data. rewrite Hne.
  set (cp := filter (λ col, col ∈ columns df) columns_needed).
  rewrite getitems_present. fold cp. cbn [res_bind].
  assert (Hcp : ∀ c, c ∈ ["code"; "product_name"; "categories"; "stores";
                          "countries"; "nutriscore_grade"; "quantity"] → c ∈ cp).
  { intros c Hc. apply list_elem_of_filter. split; [by apply Hcols|].
    unfold columns_needed.
    repeat (apply elem_of_cons in Hc as [->|Hc]);
      [| | | | | | | by apply elem_of_nil in Hc];
      repeat first [apply list_elem_of_here | apply list_elem_of_further]. }
  unfold pd.drop_duplicates, pd.duplicated.
  rewrite decide_True by (apply Hcp, list_elem_of_here).
  cbn [res_bind rows columns]. rewrite drop_duplicates_keep_first.
  (* the rows that are kept: at least one, all of them text *)
  destruct (keep_first_head "code" (map (pd.reindex cp) (rows df))) as (k0 & base' & Hbase).
  { unfold pd.empty in Hne. apply orb_false_iff in Hne as [_ Hrows].
    apply bool_decide_eq_false_1 in Hrows. by destruct (rows df). }
  assert (Hk0 : is_text (cell k0 "product_name") = true ∧
                is_text (cell k0 "nutriscore_grade") = true).
  { assert (Hin : k0 ∈ keep_first "code" [] (map (pd.reindex cp) (rows df)))
      by (rewrite Hbase; apply list_elem_of_here).
    apply keep_first_elem in Hin as [(r & -> & Hr)%elem_of_map _].
    rewrite !cell_reindex
      by (apply Hcp; repeat first [apply list_elem_of_here | apply list_elem_of_further]).
    by apply Htext. }
  destruct Hk0 as [Hname Hgrade].
  set (base := keep_first "code" [] (map (pd.reindex cp) (rows df))) in *.
  set (df1 := {| columns := cp; rows := base |}).
  assert (HC : columns df1 = cp) by done.
  assert (HR : rows df1 = map (λ r, r) base) by (by rewrite map_id).
  clearbody df1.
  fwd_getitem df1 "product_name" HC Hcp Hin. fwd_setitem df1 df2 Hin HC HR rows_fill.
  fwd_getitem df2 "categories" HC Hcp Hin. fwd_setitem df2 df3 Hin HC HR rows_fill.
  fwd_getitem df3 "stores" HC Hcp Hin. fwd_setitem df3 df4 Hin HC HR rows_fill.
  fwd_getitem df4 "countries" HC Hcp Hin. fwd_setitem df4 df5 Hin HC HR rows_fill.
  fwd_getitem df5 "nutriscore_grade" HC Hcp Hin. fwd_setitem df5 df6 Hin HC HR rows_fill.
  fwd_getitem df6 "quantity" HC Hcp Hin. fwd_setitem df6 df7 Hin HC HR rows_fill.
  (* step 4: both columns hold a string in the first row *)
  unfold pd.str_strip, pd.str_title, pd.str_lower.
  fwd_getitem df7 "product_name" HC Hcp Hin.
  rewrite str_has_string; cbn [res_bind].
  2:{ rewrite HR, Hbase. cbn [map existsb]. apply orb_true_iff. left.
      rewrite !cell_fill_ne by done. by apply is_str_filled. }
  rewrite str_has_string; cbn [res_bind].
  2:{ rewrite HR, Hbase. cbn [map existsb]. apply orb_true_iff. left.
      rewrite is_str_str_method, !cell_fill_ne by done. by apply is_str_filled. }
  fwd_setitem df7 df8 Hin HC HR rows_normalize.
  fwd_getitem df8 "nutriscore_grade" HC Hcp Hin.
  rewrite str_has_string; cbn [res_bind].
  2:{ rewrite HR, Hbase. cbn [map existsb]. apply orb_true_iff. left.
      rewrite cell_normalize_ne, cell_fill_ne by done.
      apply is_str_filled. by rewrite !cell_fill_ne by done. }
  rewrite str_has_string; cbn [res_bind].
  2:{ rewrite HR, Hbase. cbn [map existsb]. apply orb_true_iff. left.
      rewrite is_str_str_method, cell_normalize_ne, cell_fill_ne by done.
      apply is_str_filled. by rewrite !cell_fill_ne by done. }
  fwd_setitem df8 df9 Hin HC HR rows_normalize.
  assert (Hn : "product_name" ∈ columns df9)
    by (rewrite HC; apply Hcp;
        repeat first [apply list_elem_of_here | apply list_elem_of_further]).
  assert (Hg : "nutriscore_grade" ∈ columns df9)
    by (rewrite HC; apply Hcp;
        repeat first [apply list_elem_of_here | apply list_elem_of_further]).
  (* step 5 *)
  case_decide as Hts.
  - rewrite getitem_in by done. cbn [res_bind].
    rewrite getitem_in by (by apply elem_columns_setitem). cbn [res_bind].
    unfold pd.drop_column.
    rewrite decide_True by (by do 2 apply elem_columns_setitem).
    cbn [res_bind].
    apply stamp_flag_returns; cbn [columns];
      (apply list_elem_of_filter; split; [done|]; by do 2 apply elem_columns_setitem).
  - cbn [res_bind]. by apply stamp_flag_returns.
Qed.

Lemma example_out_Ok :
  transform_product_data 7 (pd.from_records example_records) = Ok example_out.
Proof. vm_compute. exact eq_refl. Qed.

Lemma cola_out_fields :
  map_to_list cola_out =
  [ ("stores", VStr "Unknown Store"); ("countries", VStr "France");
    ("code", VStr "A1"); ("categories", VStr "Uncategorized");
    ("extracted_at", VTime 7); ("quantity", VStr "1l");
    ("quality_flag", VStr "ok"); ("nutriscore_grade", VStr "b");
    ("last_modified_date", VTime 1700000000);
    ("pipeline_version", VStr "1.0");
    ("product_name", VStr "Coca Cola Zero") ].
Proof. vm_compute. exact eq_refl. Qed.

Lemma bare_out_fields :
  map_to_list bare_out =
  [ ("stores", VStr "Unknown Store"); ("countries", VStr "Unknown Country");
    ("code", VStr "A2"); ("categories", VStr "Uncategorized");
    ("extracted_at", VTime 7); ("quantity", VStr "Unknown");
    ("quality_flag", VStr "missing_nutriscore");
    ("nutriscore_grade", VStr "not_rated");
    ("last_modified_date", VNaT); ("pipeline_version", VStr "1.0");
    ("product_name", VStr "Unknown Product") ].
Proof. vm_compute. exact eq_refl. Qed.



(** C4. A batch in which no record has a [categories] field: the
    transformer raises [KeyError] at the defaults step. *)
Theorem transform_fails_on_absent_field now :
  transform_product_data now (pd.from_records [sparse])
  = Raise (Exception (KeyError "categories")).
Proof. vm_compute. exact eq_refl. Qed.

(** The same for every non-empty frame and every defaulted field. *)
Lemma transform_raises_without_column now df c :
  pd.empty df = false →
  c ∈ ["code"; "product_name"; "categories"; "stores"; "countries";
       "nutriscore_grade"; "quantity"] →
  c ∉ columns df →
  ∃ x, transform_product_data now df = Raise x.
Proof.
  intros Hempty Hc Hout.
  destruct (transform_product_data now df) as [out|x] eqn:H; [|by eauto].
  destruct (transform_rows _ _ _ Hempty H) as [Hcols _]. by apply Hcols in Hc.
Qed.

(** A missing [last_modified_t] column alone is tolerated. *)
Lemma transform_without_timestamp :
  ∃ out, transform_product_data 0 (pd.from_records [odd; delete "last_modified_t" cola])
         = Ok out.
Proof. eexists. vm_compute. exact eq_refl. Qed.

(** ** The loader and the orchestrator, case by case *)

Ltac unfold_stmt :=
  unfold load_table_from_dataframe, copy_query, count_rows,
    try_except, bind, ret, raise, call, print, modify_bq, get_bq,
    in_world, set_rows_loaded, get_rows_loaded, of_res.

Lemma log_pipeline_run_eq env st n err w :
  log_pipeline_run env st n err w =
  (Ok VNull,
   mkWorld
     (mkBQ (staging (bq w)) (production (bq w))
        (pipeline_audit_log (bq w) ++
         (if audit_sink_ok env
          then [mkAudit (audit_now env) st n (exn_str <$> err) "1.0"]
          else []))%list)
     (stdout w ++ [audit_line env st])%list).
Proof.
  unfold log_pipeline_run, audit_sink_ok, audit_line. unfold_stmt.
  destruct w as [[s p a] o].
  destruct (audit_client_error env), (audit_load_error env); simpl;
    by rewrite ?app_nil_r.
Qed.

Lemma load_empty_eq env df w :
  pd.empty df = true →
  load_to_bigquery env df w =
  (Ok VNull, mkWorld (bq w) (stdout w ++ [StartingLoad (pd.len df); EmptySkipping])%list).
Proof.
  intros He. unfold load_to_bigquery. rewrite He. unfold_stmt. simpl.
  by rewrite <- app_assoc.
Qed.

(** Every way a load of a non-empty frame can go. *)
Lemma load_nonempty_eq env df w :
  pd.empty df = false →
  load_to_bigquery env df w =
  let dataset_line :=
    match create_dataset_error env with
    | None => DatasetReady
    | Some e => DatasetAlreadyExists e
    end in
  let b := bq w in
  let staged := mkBQ (Some (df_load env df)) (production b) (pipeline_audit_log b) in
  let swapped :=
    mkBQ (Some (df_load env df)) (Some (df_load env df)) (pipeline_audit_log b) in
  match client_error env with
  | Some e =>
      (Raise (Exception e),
       mkWorld b (stdout w ++ [StartingLoad (pd.len df); ErrorLoading e])%list)
  | None =>
  match staging_load_error env with
  | Some e =>
      (Raise (Exception e),
       mkWorld b (stdout w ++ [StartingLoad (pd.len df); dataset_line;
                               LoadingToStaging; ErrorLoading e])%list)
  | None =>
  match swap_error env with
  | Some e =>
      (Raise (Exception e),
       mkWorld staged
               (stdout w ++ [StartingLoad (pd.len df); dataset_line;
                             LoadingToStaging; StagingComplete;
                             ErrorLoading e])%list)
  | None =>
  match count_query env with
  | inl e =>
      (Raise (Exception e),
       mkWorld swapped
               (stdout w ++ [StartingLoad (pd.len df); dataset_line;
                             LoadingToStaging; StagingComplete;
                             ProductionUpdated; ErrorLoading e])%list)
  | inr total =>
      (Ok VNull,
       mkWorld swapped
               (stdout w ++ [StartingLoad (pd.len df); dataset_line;
                             LoadingToStaging; StagingComplete;
                             ProductionUpdated; Verified total])%list)
  end end end end.
Proof.
  intros He. unfold load_to_bigquery. rewrite He. fold (df_load env df).
  generalize (df_load env df). intros d. unfold_stmt.
  destruct w as [[s p a] o].
  destruct (client_error env), (create_dataset_error env), (staging_load_error env),
    (swap_error env), (count_query env); simpl;
    by rewrite <- ?app_assoc.
Qed.

(** [run_pipeline], stage by stage. The handler is always entered with
    [rows_loaded = 0]. *)
Lemma run_pipeline_eq env category w :
  run_pipeline env category w =
  let w1 := say w [Banner; PipelineStart; Category category; Banner; StageExtract] in
  match extract_product_data env category 100 with
  | Raise (SystemExit code) => (Raise (SystemExit code), w1)
  | Raise (Exception e) => failed_run env 0 e w1
  | Ok df_raw =>
      let w2 := say w1 [RawRows (pd.len df_raw); StageTransform] in
      match transform_product_data (now env) df_raw with
      | Raise (SystemExit code) => (Raise (SystemExit code), w2)
      | Raise (Exception e) => failed_run env 0 e w2
      | Ok df_clean =>
          let w3 := say w2 [CleanRows (pd.len df_clean); StageLoad] in
          match load_to_bigquery env df_clean w3 with
          | (Raise (SystemExit code), w4) => (Raise (SystemExit code), w4)
          | (Raise (Exception e), w4) => failed_run env 0 e w4
          | (Ok _, w4) =>
              let w5 := snd (log_pipeline_run env "SUCCESS" (pd.len df_clean) None w4) in
              (Ok VNull,
               say w5 [Banner; PipelineComplete; TotalRows (pd.len df_clean); Banner])
          end
      end
  end.
Proof.
  unfold run_pipeline, run_pipeline_body, failed_run, say.
  generalize (extract_product_data env category 100). intros ex.
  generalize (transform_product_data (now env)). intros tr.
  generalize (load_to_bigquery env). intros ld.
  pose proof (log_pipeline_run_eq env) as Hlg. revert Hlg.
  generalize (log_pipeline_run env). intros lg Hlg.
  unfold_stmt. simpl. rewrite <- !app_assoc. simpl.
  destruct ex as [df_raw|[e|code]]; simpl; rewrite ?Hlg; simpl; [|done..].
  destruct (tr df_raw) as [df_clean|[e|code]]; simpl; rewrite <- ?app_assoc, ?Hlg;
    simpl; [|done..].
  destruct (ld df_clean _) as [[v|[e|code]] w4]; simpl; rewrite ?Hlg; simpl; [|done..].
  by rewrite <- !app_assoc.
Qed.

(** A load in which only the creation of the dataset fails. *)
Lemma load_after_dataset_failure env df w e total :
  pd.empty df = false →
  client_error env = None →
  create_dataset_error env = Some e →
  staging_load_error env = None →
  swap_error env = None →
  count_query env = inr total →
  load_to_bigquery env df w =
  (Ok VNull,
   mkWorld (mkBQ (Some (df_load env df)) (Some (df_load env df))
                 (pipeline_audit_log (bq w)))
           (stdout w ++ [StartingLoad (pd.len df); DatasetAlreadyExists e;
                         LoadingToStaging; StagingComplete;
                         ProductionUpdated; Verified total])%list).
Proof.
  intros He Hc Hd Hs Hw Hq. rewrite load_nonempty_eq by done. cbv zeta.
  by rewrite Hc, Hd, Hs, Hw, Hq.
Qed.

(** *** No stage raises [SystemExit] *)

Lemma no_exit_bind {A B} (r : res A) (k : A → res B) :
  no_exit r → (∀ a, no_exit (k a)) → no_exit (res_bind r k).
Proof. destruct r as [a|[e|c]]; simpl; auto. Qed.

Lemma no_exit_getitem df c : no_exit (pd.getitem df c).
Proof. unfold pd.getitem. by case_decide. Qed.

Lemma no_exit_str s : no_exit (pd.str s).
Proof. unfold pd.str. by destruct (_ || _). Qed.

Ltac no_exit_tac :=
  lazymatch goal with
  | |- no_exit (res_bind _ _) => apply no_exit_bind; [no_exit_tac | intros ?; no_exit_tac]
  | |- no_exit (Ok _) => exact I
  | |- no_exit (Raise (Exception _)) => exact I
  | |- no_exit (pd.getitem _ _) => apply no_exit_getitem
  | |- no_exit (pd.str _) => apply no_exit_str
  | |- no_exit (if ?c then _ else _) => destruct c; no_exit_tac
  | |- no_exit (match ?c with _ => _ end) => destruct c; no_exit_tac
  | |- no_exit (pd.getitems _ _) => unfold pd.getitems; no_exit_tac
  | |- no_exit (pd.drop_duplicates _ _) => unfold pd.drop_duplicates; no_exit_tac
  | |- no_exit (pd.drop_column _ _) => unfold pd.drop_column; no_exit_tac
  | |- no_exit (pd.str_strip _) => unfold pd.str_strip; no_exit_tac
  | |- no_exit (pd.str_title _) => unfold pd.str_title; no_exit_tac
  | |- no_exit (pd.str_lower _) => unfold pd.str_lower; no_exit_tac
  end.

Lemma transform_no_exit now df : no_exit (transform_product_data now df).
Proof. unfold transform_product_data. cbv zeta. no_exit_tac. Qed.

Lemma extract_no_exit env category n : no_exit (extract_product_data env category n).
Proof. unfold extract_product_data. no_exit_tac. Qed.

(** *** The loader, whatever the frame *)

Lemma load_outcome env df w :
  ∃ r st pr out,
    load_to_bigquery env df w
    = (r, mkWorld (mkBQ st pr (pipeline_audit_log (bq w))) (stdout w ++ out)%list) ∧
    (r = Ok VNull ∨ ∃ e, r = Raise (Exception e)) ∧
    audit_attempts out = 0%nat ∧
    (pr = production (bq w) ∨ pr = Some (df_load env df)).
Proof.
  destruct (pd.empty df) eqn:He.
  - rewrite load_empty_eq by done. destruct w as [[s p a] o].
    eexists _, _, _, _; split; [reflexivity|]; eauto.
  - rewrite load_nonempty_eq by done. cbv zeta. destruct w as [[s p a] o].
    destruct (client_error env), (create_dataset_error env), (staging_load_error env),
      (swap_error env), (count_query env);
      (eexists _, _, _, _; split; [reflexivity|]; eauto 6).
Qed.

(** *** Every run *)

Lemma run_pipeline_cases env category w :
  ∃ r st pr out entries,
    run_pipeline env category w
    = (r, mkWorld (mkBQ st pr (pipeline_audit_log (bq w) ++ entries)%list)
                  (stdout w ++ out)%list) ∧
    audit_attempts out = 1%nat ∧
    ((r = Ok VNull ∧
      ∃ df_raw df_clean,
        extract_product_data env category 100 = Ok df_raw ∧
        transform_product_data (now env) df_raw = Ok df_clean ∧
        entries = audit_entries env "SUCCESS" (pd.len df_clean) None) ∨
     (r = Raise (SystemExit 1) ∧
      ∃ e, stage_error env category e ∧
           entries = audit_entries env "FAILED" 0 (Some e))).
Proof.
  rewrite run_pipeline_eq. cbv zeta. unfold failed_run, say, stage_error.
  assert (Hline : ∀ st, is_audit_line (audit_line env st) = true)
    by (intros; unfold audit_line;
        by destruct (audit_client_error env), (audit_load_error env)).
  pose proof (extract_no_exit env category 100) as Hex.
  destruct (extract_product_data env category 100) as [df_raw|[e|code]] eqn:Eex;
    [| |done].
  - pose proof (transform_no_exit (now env) df_raw) as Htr.
    destruct (transform_product_data (now env) df_raw) as [df_clean|[e|code]] eqn:Etr;
      [| |done].
    + simpl.
      match goal with |- context [load_to_bigquery env df_clean ?w3] =>
        destruct (load_outcome env df_clean w3) as (r & st & pr & out & Hld & Hr & Ha & _)
      end.
      simpl in Hld. rewrite Hld. unfold audit_attempts in Ha.
      destruct Hr as [->|[e ->]];
        rewrite log_pipeline_run_eq; simpl; rewrite <- !app_assoc;
        (eexists _, _, _, _, _; split; [reflexivity|]; split;
         [unfold audit_attempts;
          rewrite !List.filter_app, !length_app, Ha; simpl; by rewrite Hline|]).
      * left. split; [done|]. by eexists _, _.
      * right. split; [done|]. exists e. split; [|done].
        right; right. eexists _, _, _. split; [done|]. split; [done|].
        by rewrite Hld.
    + rewrite log_pipeline_run_eq. simpl. rewrite <- !app_assoc.
      destruct w as [[s p a] o]. eexists _, _, _, _, _. split; [reflexivity|]. split.
      { unfold audit_attempts. simpl. by rewrite Hline. }
      right. split; [done|]. exists e. split; [|done]. right; left. by eexists.
  - rewrite log_pipeline_run_eq. simpl. rewrite <- !app_assoc.
    destruct w as [[s p a] o]. eexists _, _, _, _, _. split; [reflexivity|]. split.
    { unfold audit_attempts. simpl. by rewrite Hline. }
    right. split; [done|]. exists e. split; [|done]. by left.
Qed.

(** ** The loader *)

(** C6, as amended. The production table after a load is either what
    it was or the whole new batch; and when the connection, the staging
    write (step 2) or the swap (step 3) fails with [e], the load raises
    [e] itself and production is what it was. *)
Theorem load_failure_keeps_production env df w :
  (production (bq (snd (load_to_bigquery env df w))) = production (bq w) ∨
   production (bq (snd (load_to_bigquery env df w))) = Some (df_load env df)) ∧
  ∀ e,
    pd.empty df = false →
    client_error env = Some e ∨
    client_error env = None ∧ staging_load_error env = Some e ∨
    client_error env = None ∧ staging_load_error env = None ∧ swap_error env = Some e →
    fst (load_to_bigquery env df w) = Raise (Exception e) ∧
    production (bq (snd (load_to_bigquery env df w))) = production (bq w).
Proof.
  split.
  - destruct (load_outcome env df w) as (r & st & pr & out & -> & _ & _ & Hpr). done.
  - intros e He Hfail. rewrite load_nonempty_eq by done. cbv zeta.
    destruct Hfail as [->|[[-> ->]|(-> & -> & ->)]]; done.
Qed.

Lemma load_failure_keeps_production_witness :
  fst (load_to_bigquery env_no_staging example_out world_old)
  = Raise (Exception (GoogleAPIError "Bad Request")) ∧
  production (bq (snd (load_to_bigquery env_no_staging example_out world_old)))
  = production (bq world_old).
Proof.
  apply (proj2 (load_failure_keeps_production env_no_staging example_out world_old)).
  - vm_compute. exact eq_refl.
  - right. left. split; exact eq_refl.
Defined.

(** C6, as stated, fails for step 1: the creation of the dataset fails,
    the load goes on, returns normally and replaces production. *)
Lemma load_continues_after_dataset_failure :
  create_dataset_error env_ok = Some (GoogleAPIError "Access Denied") ∧
  fst (load_to_bigquery env_ok example_out world_old) = Ok VNull ∧
  production (bq (snd (load_to_bigquery env_ok example_out world_old)))
  = Some (df_load env_ok example_out) ∧
  production (bq (snd (load_to_bigquery env_ok example_out world_old)))
  ≠ production (bq world_old).
Proof.
  assert (He : pd.empty example_out = false) by (vm_compute; exact eq_refl).
  rewrite (load_after_dataset_failure env_ok example_out world_old _ 5 He)
    by exact eq_refl.
  cbn [fst snd bq production].
  split; [exact eq_refl|]. split; [exact eq_refl|]. split; [exact eq_refl|].
  intros H. apply (f_equal (from_option pd.len 0%nat)) in H.
  vm_compute in H. discriminate H.
Qed.

(** C7, as amended. For an empty batch the loader prints two lines,
    returns [None] and leaves the warehouse as it was. *)
Theorem load_empty_is_noop env df w :
  pd.empty df = true →
  load_to_bigquery env df w =
  (Ok VNull,
   mkWorld (bq w) (stdout w ++ [StartingLoad (pd.len df); EmptySkipping])%list).
Proof. apply load_empty_eq. Qed.

Lemma load_empty_is_noop_witness :
  load_to_bigquery env_ok (pd.from_records []) world_old =
  (Ok VNull, mkWorld (bq world_old) [StartingLoad 0; EmptySkipping]).
Proof. apply (load_empty_is_noop env_ok (pd.from_records []) world_old). exact eq_refl. Defined.

(** C7, as stated, fails: the value returned for an empty batch is
    [None], not a row count of 0. *)
Lemma load_empty_returns_None :
  fst (load_to_bigquery env_ok (pd.from_records []) world_old) = Ok VNull ∧
  fst (load_to_bigquery env_ok (pd.from_records []) world_old) ≠ Ok (VNum 0).
Proof. split; [exact eq_refl | discriminate]. Qed.

(** C8, as amended. After the swap the loader reads the production row
    count back and prints it; whatever the count is, the load ends
    normally, returns [None] and production holds the new batch. *)
Theorem load_reads_back_count env df w total :
  pd.empty df = false →
  client_error env = None →
  staging_load_error env = None →
  swap_error env = None →
  count_query env = inr total →
  ∃ out,
    load_to_bigquery env df w =
    (Ok VNull,
     mkWorld (mkBQ (Some (df_load env df)) (Some (df_load env df))
                   (pipeline_audit_log (bq w)))
             (stdout w ++ out ++ [ProductionUpdated; Verified total])%list).
Proof.
  intros He Hc Hs Hw Hq. rewrite load_nonempty_eq by done. cbv zeta.
  rewrite Hc, Hs, Hw, Hq. by eexists [_; _; _; _].
Qed.

Lemma load_reads_back_count_witness :
  ∃ out,
    load_to_bigquery env_ok example_out world_old =
    (Ok VNull,
     mkWorld (mkBQ (Some (df_load env_ok example_out))
                   (Some (df_load env_ok example_out)) [])
             (out ++ [ProductionUpdated; Verified 5])%list).
Proof.
  apply (load_reads_back_count env_ok example_out world_old 5);
    [vm_compute; exact eq_refl | exact eq_refl..].
Defined.

(** C8, as stated, fails: two rows are loaded and five are read back;
    the count is printed as verified, nothing reports the difference,
    and the value returned is [None], not the loaded count. *)
Lemma load_ignores_count_mismatch :
  pd.len example_out = 2%nat ∧
  count_query env_ok = inr 5 ∧
  stdout (snd (load_to_bigquery env_ok example_out world_old))
  = [StartingLoad 2; DatasetAlreadyExists (GoogleAPIError "Access Denied");
     LoadingToStaging; StagingComplete; ProductionUpdated; Verified 5] ∧
  fst (load_to_bigquery env_ok example_out world_old) = Ok VNull ∧
  fst (load_to_bigquery env_ok example_out world_old) ≠ Ok (VNum 2).
Proof.
  assert (He : pd.empty example_out = false) by (vm_compute; exact eq_refl).
  assert (Hn : pd.len example_out = 2%nat) by (vm_compute; exact eq_refl).
  rewrite (load_after_dataset_failure env_ok example_out world_old _ 5 He)
    by exact eq_refl.
  rewrite Hn. cbn [fst snd stdout].
  repeat split; try exact eq_refl. discriminate.
Qed.

(** ** The audit logger and the orchestrator *)

(** C5, as amended. Every run makes exactly one audit attempt. When the
    audit sink accepts it, exactly one entry is appended, otherwise
    none: on full success the entry has status [SUCCESS] and the length
    of the clean batch; when a stage raises [e] it has status [FAILED],
    0 rows and [str(e)], and the run ends in [sys.exit(1)]. *)
Theorem run_pipeline_audits_once env category w :
  ∃ out entry,
    let r := fst (run_pipeline env category w) in
    let w' := snd (run_pipeline env category w) in
    stdout w' = (stdout w ++ out)%list ∧
    audit_attempts out = 1%nat ∧
    pipeline_audit_log (bq w')
    = (pipeline_audit_log (bq w) ++ (if audit_sink_ok env then [entry] else []))%list ∧
    ((r = Ok VNull ∧ exit_status r = 0 ∧
      ∃ df_raw df_clean,
        extract_product_data env category 100 = Ok df_raw ∧
        transform_product_data (now env) df_raw = Ok df_clean ∧
        entry = mkAudit (audit_now env) "SUCCESS" (pd.len df_clean) None "1.0") ∨
     (r = Raise (SystemExit 1) ∧ exit_status r = 1 ∧
      ∃ e, stage_error env category e ∧
           entry = mkAudit (audit_now env) "FAILED" 0 (Some (exn_str e)) "1.0")).
Proof.
  destruct (run_pipeline_cases env category w)
    as (r & st & pr & out & entries & -> & Hout & Hcase).
  cbv zeta. simpl.
  destruct Hcase as [(-> & df_raw & df_clean & Hex & Htr & ->)
                    |(-> & e & He & ->)]; unfold audit_entries.
  - eexists out, _. split; [done|]. split; [done|]. split; [done|].
    left. split; [done|]. split; [done|]. by eexists _, _.
  - eexists out, _. split; [done|]. split; [done|]. split; [done|].
    right. split; [done|]. split; [done|]. by eexists.
Qed.

(** C5, as stated, fails: the run succeeds, the audit sink refuses the
    write, and no entry is written. *)
Lemma run_without_audit_entry :
  fst (run_pipeline env_no_audit "snacks" world_old) = Ok VNull ∧
  pipeline_audit_log (bq (snd (run_pipeline env_no_audit "snacks" world_old))) = [] ∧
  audit_attempts (stdout (snd (run_pipeline env_no_audit "snacks" world_old))) = 1%nat.
Proof. vm_compute. repeat split; exact eq_refl. Qed.

(** C9. [log_pipeline_run] returns normally whatever the audit sink
    does, and touches neither staging nor production; when the sink
    fails nothing is appended and a warning is printed. Hence a run
    returns or raises the same, and leaves the same staging and
    production tables, whatever the audit sink does. *)
Theorem audit_failure_is_swallowed env status n error w :
  (∃ w',
      log_pipeline_run env status n error w = (Ok VNull, w') ∧
      staging (bq w') = staging (bq w) ∧
      production (bq w') = production (bq w) ∧
      (audit_sink_ok env = false →
       pipeline_audit_log (bq w') = pipeline_audit_log (bq w) ∧
       ∃ e, stdout w' = (stdout w ++ [AuditWarning e])%list)) ∧
  ∀ category client load,
    let env' := with_audit_errors env client load in
    fst (run_pipeline env' category w) = fst (run_pipeline env category w) ∧
    staging (bq (snd (run_pipeline env' category w)))
    = staging (bq (snd (run_pipeline env category w))) ∧
    production (bq (snd (run_pipeline env' category w)))
    = production (bq (snd (run_pipeline env category w))).
Proof.
  split.
  - rewrite log_pipeline_run_eq. eexists. split; [done|]. simpl.
    split; [done|]. split; [done|]. intros Hsink. rewrite Hsink, app_nil_r.
    split; [done|]. unfold audit_sink_ok in Hsink. unfold audit_line.
    destruct (audit_client_error env), (audit_load_error env); by eauto.
  - intros category client load env'. rewrite !run_pipeline_eq. cbv zeta.
    change (extract_product_data env' category 100)
      with (extract_product_data env category 100).
    change (now env') with (now env).
    change (load_to_bigquery env') with (load_to_bigquery env).
    unfold failed_run.
    destruct (extract_product_data env category 100) as [df_raw|[e|code]];
      [| by rewrite !log_pipeline_run_eq | done].
    destruct (transform_product_data (now env) df_raw) as [df_clean|[e|code]];
      [| by rewrite !log_pipeline_run_eq | done].
    destruct (load_to_bigquery env df_clean _) as [[v|[e|code]] w4];
      [by rewrite !log_pipeline_run_eq.. | done].
Qed.

(** C10. Every [FAILED] entry a run appends has 0 rows; and when the
    run ends in an exception every entry it appends is such an entry. *)
Theorem failed_run_reports_zero_rows env category w :
  ∃ new,
    pipeline_audit_log (bq (snd (run_pipeline env category w)))
    = (pipeline_audit_log (bq w) ++ new)%list ∧
    ∀ entry, entry ∈ new →
      (status entry = "FAILED" → rows_loaded entry = 0%nat) ∧
      ((∃ x, fst (run_pipeline env category w) = Raise x) →
       status entry = "FAILED" ∧ rows_loaded entry = 0%nat).
Proof.
  destruct (run_pipeline_cases env category w)
    as (r & st & pr & out & entries & -> & _ & Hcase).
  exists entries. split; [done|]. intros entry Hentry. simpl.
  destruct Hcase as [(-> & df_raw & df_clean & _ & _ & ->)
                    |(-> & e & _ & ->)];
    unfold audit_entries in Hentry; destruct (audit_sink_ok env);
    try (by apply elem_of_nil in Hentry);
    apply list_elem_of_singleton in Hentry as ->; simpl.
  - split; [done|]. by intros [x ?].
  - done.
Qed.

Lemma audit_failure_is_swallowed_witness :
  fst (run_pipeline env_no_audit "snacks" world_old)
  = fst (run_pipeline env_ok "snacks" world_old) ∧
  staging (bq (snd (run_pipeline env_no_audit "snacks" world_old)))
  = staging (bq (snd (run_pipeline env_ok "snacks" world_old))) ∧
  production (bq (snd (run_pipeline env_no_audit "snacks" world_old)))
  = production (bq (snd (run_pipeline env_ok "snacks" world_old))).
Proof.
  exact (proj2 (audit_failure_is_swallowed env_ok "SUCCESS" 2 None world_old)
               "snacks" (Some (GoogleAPIError "Forbidden")) None).
Defined.

Lemma failed_run_reports_zero_rows_witness :
  ∃ new,
    pipeline_audit_log (bq (snd (run_pipeline env_no_staging "snacks" world_old)))
    = new ∧
    ∀ entry, entry ∈ new →
      (status entry = "FAILED" → rows_loaded entry = 0%nat) ∧
      ((∃ x, fst (run_pipeline env_no_staging "snacks" world_old) = Raise x) →
       status entry = "FAILED" ∧ rows_loaded entry = 0%nat).
Proof. exact (failed_run_reports_zero_rows env_no_staging "snacks" world_old). Defined.

(** A run whose staging write fails: it exits with status 1,
    production keeps the earlier batch, and the one entry written is
    [FAILED] with 0 rows. *)
Lemma run_with_failing_staging :
  let r := run_pipeline env_no_staging "snacks" world_old in
  exit_status (fst r) = 1 ∧
  production (bq (snd r)) = Some old_batch ∧
  pipeline_audit_log (bq (snd r))
  = [mkAudit "2026-01-01 00:00:00" "FAILED" 0 (Some "Bad Request") "1.0"].
Proof.
  cbv zeta. rewrite run_pipeline_eq. cbv zeta.
  change (extract_product_data env_no_staging "snacks" 100)
    with (Ok (pd.from_records example_records) : res DataFrame).
  change (now env_no_staging) with 7. lazy beta iota zeta.
  rewrite example_out_Ok. lazy beta iota zeta.
  assert (He : pd.empty example_out = false) by (vm_compute; exact eq_refl).
  rewrite (load_nonempty_eq env_no_staging example_out _ He).
  repeat split.
Qed.

(** ** More on the transformer *)

Lemma keep_first_length col seen (l : list Row) :
  (length (keep_first col seen l) ≤ length l)%nat.
Proof.
  revert seen. induction l as [|r l IH]; intros seen; simpl; [done|].
  case_decide; simpl; specialize (IH (cell r col :: seen)); lia.
Qed.

(** Step 5 of the transformer, on columns. *)
Lemma convert_timestamp_columns df df' :
  "last_modified_date" ∉ columns df →
  (if decide ("last_modified_t" ∈ columns df) then
     s <~ pd.getitem df "last_modified_t";
     let df := pd.setitem df "last_modified_t" (pd.to_numeric s) in
     s <~ pd.getitem df "last_modified_t";
     let df := pd.setitem df "last_modified_date" (pd.to_datetime s) in
     pd.drop_column df "last_modified_t"
   else Ok df) = Ok df' →
  columns df' =
  if decide ("last_modified_t" ∈ columns df)
  then (filter (λ c, c ≠ "last_modified_t") (columns df) ++ ["last_modified_date"])%list
  else columns df.
Proof.
  intros Hdate. case_decide as Hts.
  - intros [_ H]%bind_getitem_Ok. cbv beta zeta in H.
    apply bind_getitem_Ok in H as [_ H].
    unfold pd.drop_column in H. case_decide; [|discriminate].
    injection H as <-. cbn [columns pd.setitem].
    rewrite (decide_True (P := "last_modified_t" ∈ columns df)) by done.
    rewrite decide_False by done. rewrite filter_app.
    f_equal.
  - by intros [= <-].
Qed.

(** Steps 6 and 7 of the transformer, on columns. *)
Lemma stamp_flag_columns now df out :
  "extracted_at" ∉ columns df →
  "pipeline_version" ∉ columns df →
  "quality_flag" ∉ columns df →
  (let df := pd.setitem_scalar df "extracted_at" (VTime now) in
   let df := pd.setitem_scalar df "pipeline_version" (VStr "1.0") in
   let df := pd.setitem_scalar df "quality_flag" (VStr "ok") in
   m <~ (s <~ pd.getitem df "product_name";
         Ok (pd.eq_scalar s (VStr "Unknown Product")));
   let df := pd.loc_set df m "quality_flag" (VStr "missing_name") in
   m <~ (s <~ pd.getitem df "nutriscore_grade";
         Ok (pd.eq_scalar s (VStr "not_rated")));
   let df := pd.loc_set df m "quality_flag" (VStr "missing_nutriscore") in
   Ok df) = Ok out →
  columns out
  = (columns df ++ ["extracted_at"; "pipeline_version"; "quality_flag"])%list.
Proof.
  intros Hea Hpv Hqf. cbv zeta.
  intros (m1 & [_ [= <-]]%bind_getitem_Ok & H)%bind_Ok.
  apply bind_Ok in H as (m2 & [_ [= <-]]%bind_getitem_Ok & [= <-]).
  cbn [columns pd.loc_set pd.setitem_scalar].
  rewrite (decide_False (P := "extracted_at" ∈ columns df)) by done.
  rewrite (decide_False (P := "pipeline_version" ∈ _)).
  2:{ intros [?|[= ]%list_elem_of_singleton]%elem_of_app. done. }
  rewrite decide_False.
  2:{ intros [[?|[= ]%list_elem_of_singleton]%elem_of_app
             |[= ]%list_elem_of_singleton]%elem_of_app. done. }
  by rewrite <- !app_assoc.
Qed.

Lemma present_needed (cols : list string) c :
  c ∈ filter (λ col, col ∈ cols) columns_needed → c ∈ columns_needed ∧ c ∈ cols.
Proof. intros [? ?]%list_elem_of_filter. done. Qed.

Lemma not_needed c :
  c ∈ ["last_modified_date"; "extracted_at"; "pipeline_version"; "quality_flag"] →
  c ∉ columns_needed.
Proof.
  intros Hc Hn. unfold columns_needed in Hn.
  repeat (apply elem_of_cons in Hc as [->|Hc]);
    [| | | | by apply elem_of_nil in Hc];
    repeat (apply elem_of_cons in Hn as [[=]|Hn]); by apply elem_of_nil in Hn.
Qed.

Lemma transform_columns now df out :
  pd.empty df = false →
  transform_product_data now df = Ok out →
  columns out = output_columns (columns df).
Proof.
  intros Hne H. unfold output_columns. cbv zeta.
  set (cp := filter (λ col, col ∈ columns df) columns_needed).
  unfold transform_product_data in H. rewrite Hne in H.
  fold cp in H. rewrite getitems_present in H. fold cp in H.
  unfold res_bind at 1 in H.
  apply bind_Ok in H as (df2 & Hdd & H).
  unfold pd.drop_duplicates in Hdd.
  destruct (decide ("code" ∈ columns {| columns := cp; rows := map (pd.reindex cp) (rows df) |}))
    as [Hcode|]; [|discriminate]. injection Hdd as <-.
  unfold pd.duplicated in H. cbn [rows columns] in H, Hcode.
  rewrite drop_duplicates_keep_first in H.
  set (base := keep_first "code" [] (map (pd.reindex cp) (rows df))) in *.
  set (df2 := {| columns := cp; rows := base |}) in H.
  assert (HC : columns df2 = cp) by done.
  assert (HR : rows df2 = map (λ r, r) base) by (by rewrite map_id).
  clearbody df2.
  assign_step H HC HR rows_fill.
  assign_step H HC HR rows_fill.
  assign_step H HC HR rows_fill.
  assign_step H HC HR rows_fill.
  assign_step H HC HR rows_fill.
  assign_step H HC HR rows_fill.
  assign_step H HC HR rows_normalize.
  assign_step H HC HR rows_normalize.
  apply bind_Ok in H as (df9 & H5 & H).
  assert (Hnew : ∀ c, c ∈ ["last_modified_date"; "extracted_at";
                           "pipeline_version"; "quality_flag"] → c ∉ cp).
  { intros c Hc [Hn _]%present_needed. by apply (not_needed c). }
  apply convert_timestamp_columns in H5;
    [|rewrite HC; apply Hnew, list_elem_of_here].
  rewrite HC in H5.
  assert (Hts : "last_modified_t" ∈ cp ↔ "last_modified_t" ∈ columns df).
  { split; [by intros [_ ?]%present_needed|]. intros. apply list_elem_of_filter.
    split; [done|]. unfold columns_needed.
    do 7 apply list_elem_of_further. apply list_elem_of_here. }
  assert (Hout : ∀ c, c ∈ ["extracted_at"; "pipeline_version"; "quality_flag"] →
                      c ∉ columns df9).
  { intros c Hc. rewrite H5. case_decide.
    - intros [[_ Hcin]%list_elem_of_filter|Hcin%list_elem_of_singleton]%elem_of_app.
      + revert Hcin. apply Hnew. by apply list_elem_of_further.
      + subst c. repeat (apply elem_of_cons in Hc as [[=]|Hc]).
        by apply elem_of_nil in Hc.
    - apply Hnew. by apply list_elem_of_further. }
  apply stamp_flag_columns in H;
    [|apply Hout; repeat first [apply list_elem_of_here | apply list_elem_of_further]..].
  rewrite H, H5. f_equal.
  destruct (decide ("last_modified_t" ∈ cp)) as [Hy|Hn].
  - by rewrite decide_True by (by apply Hts).
  - by rewrite decide_False by (by rewrite <- Hts).
Qed.

(** *** The keys of a cleaned row *)

Lemma dom_reindex cols r : dom (pd.reindex cols r) = list_to_set cols.
Proof.
  unfold pd.reindex. induction cols as [|c cols IH]; simpl.
  - apply dom_empty_L.
  - rewrite dom_insert_L. by rewrite IH.
Qed.

Lemma dom_fill_defaults r :
  dom (fill_defaults r)
  = {["quantity"]} ∪ ({["nutriscore_grade"]} ∪ ({["countries"]} ∪ ({["stores"]} ∪
      ({["categories"]} ∪ ({["product_name"]} ∪ dom r))))).
Proof. unfold fill_defaults, fill. by rewrite !dom_insert_L. Qed.

Lemma dom_flag r : dom (flag r) = {["quality_flag"]} ∪ dom r.
Proof.
  unfold flag. repeat case_bool_decide; rewrite !dom_insert_L;
    apply set_eq; intros k; rewrite !elem_of_union, !elem_of_singleton; tauto.
Qed.

Lemma dom_clean_row b now r :
  (∀ c, c ∈ ["product_name"; "categories"; "stores"; "countries";
             "nutriscore_grade"; "quantity"] → c ∈ dom r) →
  dom (clean_row b now r)
  = {["quality_flag"]} ∪ ({["pipeline_version"]} ∪ ({["extracted_at"]} ∪
      (if b then ({["last_modified_date"]} ∪ dom r) ∖ {["last_modified_t"]}
       else dom r))).
Proof.
  intros Hsix. unfold clean_row. cbv zeta.
  rewrite dom_flag. unfold stamp. rewrite !dom_insert_L.
  assert (Hn : dom (normalize "nutriscore_grade" Str.lower
                 (normalize "product_name" Str.title (fill_defaults r))) = dom r).
  { unfold normalize. rewrite !dom_insert_L, dom_fill_defaults.
    apply set_eq. intros k. rewrite !elem_of_union, !elem_of_singleton.
    split; [|tauto].
    intros [->|[->|[->|[->|[->|[->|[->|[->|?]]]]]]]]; try done; apply Hsix;
      repeat first [apply list_elem_of_here | apply list_elem_of_further]. }
  destruct b.
  - unfold convert_timestamp. cbv zeta.
    rewrite dom_delete_L, !dom_insert_L, Hn.
    apply set_eq. intros k. set_unfold. tauto.
  - by rewrite Hn.
Qed.

(** *** More lookups in a cleaned row *)

Lemma lookup_clean_row_stamp b now r :
  clean_row b now r !! "extracted_at" = Some (VTime now) ∧
  clean_row b now r !! "pipeline_version" = Some (VStr "1.0").
Proof.
  unfold clean_row. cbv zeta. rewrite !lookup_flag_ne by done. unfold stamp.
  split; [rewrite lookup_insert_ne by done|]; by rewrite lookup_insert_eq.
Qed.

Lemma lookup_clean_row_timestamp b now r :
  clean_row b now r !! "last_modified_t"
  = (if b then None else r !! "last_modified_t") ∧
  clean_row b now r !! "last_modified_date"
  = (if b then Some (pd.to_datetime_value
                       (pd.to_numeric_value (cell r "last_modified_t")))
     else r !! "last_modified_date").
Proof.
  unfold clean_row. cbv zeta.
  rewrite !lookup_flag_ne, !lookup_stamp_ne by done.
  assert (Hn : ∀ k, k ≠ "product_name" → k ≠ "nutriscore_grade" →
             k ∉ ["categories"; "stores"; "countries"; "quantity"] →
             normalize "nutriscore_grade" Str.lower
               (normalize "product_name" Str.title (fill_defaults r)) !! k = r !! k).
  { intros k H1 H2 H3. rewrite !lookup_normalize_ne by done.
    unfold fill_defaults. rewrite !lookup_fill_ne; [done|..];
      intros <-; first [done | apply H3;
        repeat first [apply list_elem_of_here | apply list_elem_of_further]]. }
  assert (Hmem : ∀ k, k ∈ ["last_modified_t"; "last_modified_date"] →
                      k ∉ ["categories"; "stores"; "countries"; "quantity"]).
  { intros k Hk Hc.
    repeat (apply elem_of_cons in Hk as [->|Hk]); [| |by apply elem_of_nil in Hk];
      repeat (apply elem_of_cons in Hc as [[=]|Hc]); by apply elem_of_nil in Hc. }
  destruct b.
  - unfold convert_timestamp. cbv zeta. split.
    + by rewrite lookup_delete_eq.
    + rewrite lookup_delete_ne by done. rewrite lookup_insert_eq.
      unfold cell at 1. rewrite lookup_insert_eq. simpl.
      unfold cell. rewrite Hn; [done..|]. apply Hmem, list_elem_of_here.
  - split; (rewrite Hn; [done..|]); apply Hmem;
      repeat first [apply list_elem_of_here | apply list_elem_of_further].
Qed.

Lemma cell_clean_record_code cols now r :
  "code" ∈ cols → cell (clean_record cols now r) "code" = cell r "code".
Proof.
  intros Hc. unfold cell at 1, clean_record.
  rewrite lookup_clean_row_code, lookup_reindex.
  rewrite decide_True; [done|].
  apply list_elem_of_filter. split; [done | apply list_elem_of_here].
Qed.

(** ** Properties of the transformer's output *)

(** X1. On a non-empty frame the transformer returns a frame whose
    columns are the needed columns that were present, with
    [last_modified_t] replaced by [last_modified_date], followed by the
    three pipeline columns; and every returned record has exactly these
    fields: no other field of a raw record gets through. *)
Theorem transform_output_schema now df out :
  pd.empty df = false →
  transform_product_data now df = Ok out →
  columns out = output_columns (columns df) ∧
  ∀ r k, r ∈ rows out → (is_Some (r !! k) ↔ k ∈ columns out).
Proof.
  intros Hne H. pose proof (transform_columns _ _ _ Hne H) as Hcols.
  split; [done|]. intros r k Hr. rewrite Hcols.
  destruct (transform_clean_records _ _ _ Hne H) as [Hin Hrows].
  rewrite Hrows in Hr. apply elem_of_map in Hr as (r0 & -> & _).
  rewrite <- elem_of_dom. unfold clean_record, output_columns. cbv zeta.
  set (cp := filter (λ col, col ∈ columns df) columns_needed).
  assert (Hcp : ∀ c, c ∈ ["code"; "product_name"; "categories"; "stores";
                          "countries"; "nutriscore_grade"; "quantity"] → c ∈ cp).
  { intros c Hc. apply list_elem_of_filter. split; [by apply Hin|].
    unfold columns_needed.
    repeat (apply elem_of_cons in Hc as [->|Hc]);
      [| | | | | | | by apply elem_of_nil in Hc];
      repeat first [apply list_elem_of_here | apply list_elem_of_further]. }
  rewrite dom_clean_row.
  2:{ intros c Hc. rewrite dom_reindex. apply elem_of_list_to_set, Hcp.
      by apply list_elem_of_further. }
  rewrite dom_reindex.
  destruct (decide ("last_modified_t" ∈ columns df)) as [Hts|Hts].
  - rewrite bool_decide_eq_true_2 by done.
    rewrite !elem_of_app, list_elem_of_filter, !elem_of_cons, elem_of_nil.
    set_unfold. intuition (subst; done).
  - rewrite bool_decide_eq_false_2 by done.
    rewrite !elem_of_app, !elem_of_cons, elem_of_nil.
    set_unfold. tauto.
Qed.

Lemma transform_output_schema_witness :
  columns example_out
  = output_columns (columns (pd.from_records example_records)) ∧
  ∀ r k, r ∈ rows example_out → (is_Some (r !! k) ↔ k ∈ columns example_out).
Proof.
  apply (transform_output_schema 7 (pd.from_records example_records) example_out);
    vm_compute; exact eq_refl.
Defined.

(** X3. Every record the transformer returns for a non-empty frame
    carries the time of the transformation in [extracted_at] and the
    constant ["1.0"] in [pipeline_version]. *)
Theorem transform_stamps_metadata now df out :
  pd.empty df = false →
  transform_product_data now df = Ok out →
  ∀ r, r ∈ rows out →
    r !! "extracted_at" = Some (VTime now) ∧
    r !! "pipeline_version" = Some (VStr "1.0").
Proof.
  intros Hne H r Hr.
  destruct (transform_clean_records _ _ _ Hne H) as [_ Hrows].
  rewrite Hrows in Hr. apply elem_of_map in Hr as (r0 & -> & _).
  apply lookup_clean_row_stamp.
Qed.

Lemma transform_stamps_metadata_witness :
  bare_out !! "extracted_at" = Some (VTime 7) ∧
  bare_out !! "pipeline_version" = Some (VStr "1.0").
Proof.
  apply (transform_stamps_metadata 7 (pd.from_records example_records) example_out).
  - vm_compute. exact eq_refl.
  - vm_compute. exact eq_refl.
  - apply list_elem_of_lookup_2 with 1%nat. vm_compute. exact eq_refl.
Defined.

(** ** The string methods *)

Ltac all_ascii a := destruct a as [[] [] [] [] [] [] [] []]; vm_compute; exact eq_refl.

Lemma is_space_to_lower a : Str.is_space (Str.to_lower a) = Str.is_space a.
Proof. all_ascii a. Qed.
Lemma is_space_to_upper a : Str.is_space (Str.to_upper a) = Str.is_space a.
Proof. all_ascii a. Qed.
Lemma is_cased_to_lower a : Str.is_cased (Str.to_lower a) = Str.is_cased a.
Proof. all_ascii a. Qed.
Lemma is_cased_to_upper a : Str.is_cased (Str.to_upper a) = Str.is_cased a.
Proof. all_ascii a. Qed.
Lemma to_lower_idemp a : Str.to_lower (Str.to_lower a) = Str.to_lower a.
Proof. all_ascii a. Qed.
Lemma to_upper_idemp a : Str.to_upper (Str.to_upper a) = Str.to_upper a.
Proof. all_ascii a. Qed.

Lemma lower_idemp s : Str.lower (Str.lower s) = Str.lower s.
Proof. induction s as [|a s IH]; simpl; [done|]. by rewrite to_lower_idemp, IH. Qed.

Lemma title_from_idemp b s : Str.title_from b (Str.title_from b s) = Str.title_from b s.
Proof.
  revert b. induction s as [|a s IH]; intros b; simpl; [done|].
  destruct b; rewrite ?to_lower_idemp, ?to_upper_idemp, ?is_cased_to_lower,
    ?is_cased_to_upper, IH; done.
Qed.

Lemma lstrip_length s : (String.length (Str.lstrip s) ≤ String.length s)%nat.
Proof.
  induction s as [|a s IH]; simpl; [done|]. destruct (Str.is_space a); simpl; lia.
Qed.

(** A string on which [lstrip] does nothing is empty or starts with a
    character that is not white space. *)
Lemma lstrip_fixed s :
  Str.lstrip s = s ↔
  match s with
  | EmptyString => True
  | String a _ => Str.is_space a = false
  end.
Proof.
  destruct s as [|a s]; simpl; [done|]. destruct (Str.is_space a) eqn:Ha.
  - split; [|done]. intros H. pose proof (lstrip_length s) as Hl.
    rewrite H in Hl. simpl in Hl. lia.
  - done.
Qed.

Lemma lstrip_idemp s : Str.lstrip (Str.lstrip s) = Str.lstrip s.
Proof.
  induction s as [|a s IH]; simpl; [done|].
  destruct (Str.is_space a) eqn:Ha; [done|]. simpl. by rewrite Ha.
Qed.

Lemma rstrip_idemp s : Str.rstrip (Str.rstrip s) = Str.rstrip s.
Proof.
  induction s as [|a s IH]; simpl; [done|].
  destruct (Str.rstrip s) as [|b t] eqn:Hr.
  - destruct (Str.is_space a) eqn:Ha; simpl; [done|]. by rewrite Ha.
  - cbn [Str.rstrip]. cbn [Str.rstrip] in IH. by rewrite IH.
Qed.

Lemma lstrip_rstrip s : Str.lstrip s = s → Str.lstrip (Str.rstrip s) = Str.rstrip s.
Proof.
  intros H%lstrip_fixed. apply lstrip_fixed.
  destruct s as [|a s]; simpl; [done|].
  destruct (Str.rstrip s); [|done]. by rewrite H.
Qed.

Lemma strip_fixed s :
  Str.lstrip (Str.strip s) = Str.strip s ∧ Str.rstrip (Str.strip s) = Str.strip s.
Proof.
  unfold Str.strip. split; [|apply rstrip_idemp].
  apply lstrip_rstrip, lstrip_idemp.
Qed.

Lemma title_from_empty b s : Str.title_from b s = EmptyString ↔ s = EmptyString.
Proof. by destruct s. Qed.

Lemma lower_empty s : Str.lower s = EmptyString ↔ s = EmptyString.
Proof. by destruct s. Qed.

Lemma rstrip_title_from b s :
  Str.rstrip (Str.title_from b s) = Str.title_from b (Str.rstrip s).
Proof.
  revert b. induction s as [|a s IH]; intros b; simpl; [done|].
  rewrite IH. destruct (Str.rstrip s) as [|c t] eqn:Hr; simpl.
  - destruct b; rewrite ?is_space_to_lower, ?is_space_to_upper;
      by destruct (Str.is_space a).
  - done.
Qed.

Lemma rstrip_lower s : Str.rstrip (Str.lower s) = Str.lower (Str.rstrip s).
Proof.
  induction s as [|a s IH]; simpl; [done|].
  rewrite IH. destruct (Str.rstrip s) as [|c t] eqn:Hr; simpl; [|done].
  rewrite is_space_to_lower. by destruct (Str.is_space a).
Qed.

Lemma lstrip_title s : Str.lstrip s = s → Str.lstrip (Str.title s) = Str.title s.
Proof.
  intros H%lstrip_fixed. apply lstrip_fixed. destruct s as [|a s]; simpl; [done|].
  by rewrite is_space_to_upper.
Qed.

Lemma lstrip_lower s : Str.lstrip s = s → Str.lstrip (Str.lower s) = Str.lower s.
Proof.
  intros H%lstrip_fixed. apply lstrip_fixed. destruct s as [|a s]; simpl; [done|].
  by rewrite is_space_to_lower.
Qed.

(** A trimmed and title-cased string is left as it is by both methods;
    the same for lower case. *)
Lemma strip_title_strip s :
  Str.strip (Str.title (Str.strip s)) = Str.title (Str.strip s).
Proof.
  destruct (strip_fixed s) as [Hl Hr].
  unfold Str.strip at 1. rewrite lstrip_title by done.
  unfold Str.title. by rewrite rstrip_title_from, Hr.
Qed.

Lemma strip_lower_strip s :
  Str.strip (Str.lower (Str.strip s)) = Str.lower (Str.strip s).
Proof.
  destruct (strip_fixed s) as [Hl Hr].
  unfold Str.strip at 1. rewrite lstrip_lower by done.
  by rewrite rstrip_lower, Hr.
Qed.

(** ** The errors of the transformer *)

Lemma getitem_notin df c :
  c ∉ columns df → pd.getitem df c = Raise (Exception (KeyError c)).
Proof. intros. unfold pd.getitem. by rewrite decide_False. Qed.

Lemma str_cases s :
  pd.str s = Ok s ∨
  pd.str s = Raise (Exception
                      (AttributeError "Can only use .str accessor with string values!")).
Proof. unfold pd.str. destruct (_ || _); auto. Qed.

(** ** The extractor *)






(** ** The frame written to staging *)

Lemma astype_str_idemp env v : astype_str env (astype_str env v) = astype_str env v.
Proof. by destruct v. Qed.

Lemma stringify_columns_frame env df cols :
  (∀ c, c ∈ cols → c ∈ columns df) →
  columns (foldl (stringify_column env) df cols) = columns df ∧
  rows (foldl (stringify_column env) df cols)
  = map (λ r, foldl (stringify_cell env) r cols) (rows df).
Proof.
  revert df. induction cols as [|c cols IH]; intros df Hin; simpl.
  - split; [done|]. by rewrite map_id.
  - assert (Hc : c ∈ columns df) by apply Hin, list_elem_of_here.
    destruct (IH (stringify_column env df c)) as [HC HR].
    { intros k Hk. unfold stringify_column. apply elem_columns_setitem.
      by apply Hin, list_elem_of_further. }
    rewrite HC, HR. unfold stringify_column.
    rewrite columns_setitem_in by done. split; [done|].
    rewrite rows_setitem_map, map_map. done.
Qed.

Lemma lookup_stringify_cells env r cols k :
  foldl (stringify_cell env) r cols !! k
  = if decide (k ∈ cols) then Some (astype_str env (cell r k)) else r !! k.
Proof.
  revert r. induction cols as [|c cols IH]; intros r; cbn [foldl].
  - destruct (decide (k ∈ [])) as [Hk|Hk]; [|done]. by apply not_elem_of_nil in Hk.
  - rewrite IH. unfold stringify_cell, cell.
    destruct (decide (k = c)) as [->|Hne].
    + rewrite !lookup_insert_eq. cbn. rewrite astype_str_idemp.
      destruct (decide (c ∈ c :: cols)) as [_|Hn];
        [|by destruct Hn; apply list_elem_of_here].
      by destruct (decide (c ∈ cols)).
    + rewrite !lookup_insert_ne by done.
      destruct (decide (k ∈ cols)) as [Hk|Hk], (decide (k ∈ c :: cols)) as [Hk'|Hk'];
        try done.
      * destruct Hk'. by apply list_elem_of_further.
      * apply elem_of_cons in Hk' as [?|?]; done.
Qed.

Lemma df_load_frame env df :
  columns (df_load env df) = columns df ∧
  pd.len (df_load env df) = pd.len df ∧
  ∀ i r, rows df !! i = Some r →
    ∃ r', rows (df_load env df) !! i = Some r' ∧
      ∀ k, r' !! k = if decide (k ∈ datetime_columns df)
                     then Some (astype_str env (cell r k)) else r !! k.
Proof.
  unfold df_load.
  destruct (stringify_columns_frame env df (datetime_columns df)) as [HC HR].
  { intros c Hc. unfold datetime_columns in Hc. by apply list_elem_of_filter in Hc as [_ ?]. }
  split; [done|]. split; [by unfold pd.len; rewrite HR, length_map|].
  intros i r Hi. rewrite HR, map_fmap, list_lookup_fmap, Hi. simpl.
  eexists. split; [done|]. intros k. apply lookup_stringify_cells.
Qed.

Lemma datetime_column_cell df c r :
  c ∈ datetime_columns df → r ∈ rows df → is_datetime (cell r c) = true.
Proof.
  intros [Hall _]%list_elem_of_filter Hr. rewrite forallb_forall in Hall.
  by apply Hall, list_elem_of_In.
Qed.

(** ** More on the loader *)

(** X9. When the load of a non-empty batch returns, staging and
    production hold the same table; it has the columns and the number
    of rows of the batch, and each of its records is the batch's record
    with the timestamps of the timestamp columns written as strings and
    every other field unchanged. *)
Theorem load_round_trip env df w w' :
  pd.empty df = false →
  load_to_bigquery env df w = (Ok VNull, w') →
  ∃ table,
    production (bq w') = Some table ∧
    staging (bq w') = Some table ∧
    columns table = columns df ∧
    pd.len table = pd.len df ∧
    ∀ i r, rows df !! i = Some r →
      ∃ r', rows table !! i = Some r' ∧
        ∀ k, (k ∈ datetime_columns df →
              ∃ s, r' !! k = Some (VStr s) ∧ astype_str env (cell r k) = VStr s) ∧
             (k ∉ datetime_columns df → r' !! k = r !! k).
Proof.
  intros Hne H. rewrite load_nonempty_eq in H by done. cbv zeta in H.
  exists (df_load env df).
  assert (Hw : production (bq w') = Some (df_load env df) ∧
               staging (bq w') = Some (df_load env df)).
  { destruct (client_error env), (staging_load_error env), (swap_error env),
      (count_query env); try discriminate. by injection H as <-. }
  destruct Hw as [-> ->].
  destruct (df_load_frame env df) as (HC & HL & HR).
  split; [done|]. split; [done|]. split; [done|]. split; [done|].
  intros i r Hi. destruct (HR i r Hi) as (r' & Hr' & Hk).
  exists r'. split; [done|]. intros k. rewrite Hk. split.
  - intros Hdt. rewrite decide_True by done.
    assert (Hcell : is_datetime (cell r k) = true)
      by (apply (datetime_column_cell df); [done | by eapply list_elem_of_lookup_2]).
    destruct (cell r k); try discriminate; by eexists.
  - intros Hdt. by rewrite decide_False.
Qed.

Lemma load_round_trip_witness :
  ∃ table,
    production (bq (snd (load_to_bigquery env_ok example_out world_old))) = Some table ∧
    staging (bq (snd (load_to_bigquery env_ok example_out world_old))) = Some table ∧
    columns table = columns example_out ∧
    pd.len table = pd.len example_out ∧
    ∀ i r, rows example_out !! i = Some r →
      ∃ r', rows table !! i = Some r' ∧
        ∀ k, (k ∈ datetime_columns example_out →
              ∃ s, r' !! k = Some (VStr s) ∧ astype_str env_ok (cell r k) = VStr s) ∧
             (k ∉ datetime_columns example_out → r' !! k = r !! k).
Proof.
  assert (He : pd.empty example_out = false) by (vm_compute; exact eq_refl).
  apply (load_round_trip env_ok example_out world_old _ He).
  rewrite (load_after_dataset_failure env_ok example_out world_old _ 5 He)
    by exact eq_refl.
  exact eq_refl.
Defined.

Ltac not_printed :=
  let Hin := fresh "Hin" in
  intros Hin;
  repeat (apply elem_of_cons in Hin as [Hin|Hin]; [discriminate Hin|]);
  by apply elem_of_nil in Hin.

(** X10. Whatever happens, the loader prints its start line first,
    never writes to the audit table and makes no audit attempt; it
    either returns [None] having printed no error line, or raises an
    exception whose error line is the last line it printed. *)
Theorem load_logs_its_outcome env df w :
  ∃ out,
    stdout (snd (load_to_bigquery env df w))
    = (stdout w ++ StartingLoad (pd.len df) :: out)%list ∧
    pipeline_audit_log (bq (snd (load_to_bigquery env df w)))
    = pipeline_audit_log (bq w) ∧
    audit_attempts out = 0%nat ∧
    ((fst (load_to_bigquery env df w) = Ok VNull ∧ ∀ e, ErrorLoading e ∉ out) ∨
     (∃ e, fst (load_to_bigquery env df w) = Raise (Exception e) ∧
           last out = Some (ErrorLoading e))).
Proof.
  destruct (pd.empty df) eqn:He.
  - rewrite load_empty_eq by done. eexists. split; [reflexivity|].
    split; [done|]. split; [done|]. left. split; [done|]. intros e. not_printed.
  - rewrite load_nonempty_eq by done. cbv zeta.
    destruct (client_error env), (create_dataset_error env), (staging_load_error env),
      (swap_error env), (count_query env);
      (eexists; split; [reflexivity|]; split; [done|]; split; [done|]);
      first [ by right; eexists | left; split; [done|]; intros e'; not_printed ].
Qed.

(** X11. A load that raises leaves the warehouse in one of three
    states: nothing written (the connection or the staging write
    failed); staging holds the new batch and production the earlier
    one (the swap failed); or both hold the new batch (the count query
    failed after the swap). *)
Theorem load_failure_states env df w e :
  fst (load_to_bigquery env df w) = Raise (Exception e) →
  let b' := bq (snd (load_to_bigquery env df w)) in
  pd.empty df = false ∧
  ((staging b' = staging (bq w) ∧ production b' = production (bq w) ∧
    (client_error env = Some e ∨ staging_load_error env = Some e)) ∨
   (staging b' = Some (df_load env df) ∧ production b' = production (bq w) ∧
    swap_error env = Some e) ∨
   (staging b' = Some (df_load env df) ∧ production b' = Some (df_load env df) ∧
    count_query env = inl e)).
Proof.
  destruct (pd.empty df) eqn:He.
  - rewrite load_empty_eq by done. discriminate.
  - rewrite load_nonempty_eq by done. cbv zeta.
    destruct (client_error env), (staging_load_error env), (swap_error env),
      (count_query env); cbn [fst snd bq staging production];
      intros [= <-] || discriminate; split; auto 6.
Qed.

Lemma load_failure_states_witness :
  let b' := bq (snd (load_to_bigquery env_no_swap example_out world_old)) in
  pd.empty example_out = false ∧
  ((staging b' = staging (bq world_old) ∧ production b' = production (bq world_old) ∧
    (client_error env_no_swap = Some (GoogleAPIError "Quota exceeded") ∨
     staging_load_error env_no_swap = Some (GoogleAPIError "Quota exceeded"))) ∨
   (staging b' = Some (df_load env_no_swap example_out) ∧
    production b' = production (bq world_old) ∧
    swap_error env_no_swap = Some (GoogleAPIError "Quota exceeded")) ∨
   (staging b' = Some (df_load env_no_swap example_out) ∧
    production b' = Some (df_load env_no_swap example_out) ∧
    count_query env_no_swap = inl (GoogleAPIError "Quota exceeded"))).
Proof.
  apply (load_failure_states env_no_swap example_out world_old
           (GoogleAPIError "Quota exceeded")).
  assert (He : pd.empty example_out = false) by (vm_compute; exact eq_refl).
  rewrite (load_nonempty_eq env_no_swap example_out world_old He).
  exact eq_refl.
Defined.

(** ** More on the orchestrator *)

(** X12. When the count query fails after the swap, the run exits with
    status 1 and records a FAILED entry with 0 rows, although the
    production table already holds the whole new batch. *)
Theorem run_failure_after_swap env category w df_raw df_clean e :
  extract_product_data env category 100 = Ok df_raw →
  transform_product_data (now env) df_raw = Ok df_clean →
  pd.empty df_clean = false →
  client_error env = None →
  staging_load_error env = None →
  swap_error env = None →
  count_query env = inl e →
  let r := run_pipeline env category w in
  fst r = Raise (SystemExit 1) ∧
  production (bq (snd r)) = Some (df_load env df_clean) ∧
  pd.len (df_load env df_clean) = pd.len df_clean ∧
  pipeline_audit_log (bq (snd r))
  = (pipeline_audit_log (bq w) ++ audit_entries env "FAILED" 0 (Some e))%list.
Proof.
  intros Hex Htr He Hc Hs Hw Hq. cbv zeta. rewrite run_pipeline_eq. cbv zeta.
  rewrite Hex. lazy beta iota zeta. rewrite Htr. lazy beta iota zeta.
  rewrite load_nonempty_eq by done. cbv zeta. rewrite Hc, Hs, Hw, Hq.
  unfold failed_run. rewrite log_pipeline_run_eq.
  split; [done|]. split; [done|]. split; [|done].
  apply (df_load_frame env df_clean).
Qed.

Lemma run_failure_after_swap_witness :
  let r := run_pipeline env_no_count "snacks" world_old in
  fst r = Raise (SystemExit 1) ∧
  production (bq (snd r)) = Some (df_load env_no_count example_out) ∧
  pd.len (df_load env_no_count example_out) = pd.len example_out ∧
  pipeline_audit_log (bq (snd r))
  = (pipeline_audit_log (bq world_old)
     ++ audit_entries env_no_count "FAILED" 0
          (Some (GoogleAPIError "Deadline exceeded")))%list.
Proof.
  apply (run_failure_after_swap env_no_count "snacks" world_old
           (pd.from_records example_records) example_out
           (GoogleAPIError "Deadline exceeded")).
  - vm_compute. exact eq_refl.
  - exact example_out_Ok.
  - vm_compute. exact eq_refl.
  - exact eq_refl.
  - exact eq_refl.
  - exact eq_refl.
  - exact eq_refl.
Defined.

(** X13. When the extractor or the transformer raises, the loader is
    never started: the run prints no load line, leaves staging and
    production as they were, records the failure with 0 rows and exits
    with status 1. *)
Theorem run_stops_before_load env category w e :
  extract_product_data env category 100 = Raise (Exception e) ∨
  (∃ df_raw,
      extract_product_data env category 100 = Ok df_raw ∧
      transform_product_data (now env) df_raw = Raise (Exception e)) →
  let r := run_pipeline env category w in
  fst r = Raise (SystemExit 1) ∧
  staging (bq (snd r)) = staging (bq w) ∧
  production (bq (snd r)) = production (bq w) ∧
  pipeline_audit_log (bq (snd r))
  = (pipeline_audit_log (bq w) ++ audit_entries env "FAILED" 0 (Some e))%list ∧
  ∃ out,
    stdout (snd r) = (stdout w ++ out)%list ∧
    (StageLoad ∉ out) ∧ (∀ n, StartingLoad n ∉ out).
Proof.
  intros Hfail. cbv zeta. rewrite run_pipeline_eq. cbv zeta.
  assert (Hline : ∀ l, l = AuditUpdated "FAILED" ∨ (∃ e', l = AuditWarning e') →
                       l ≠ StageLoad ∧ ∀ n, l ≠ StartingLoad n).
  { intros l [->|[e' ->]]; by split. }
  assert (Haudit : audit_line env "FAILED" = AuditUpdated "FAILED" ∨
                   ∃ e', audit_line env "FAILED" = AuditWarning e').
  { unfold audit_line. destruct (audit_client_error env), (audit_load_error env); eauto. }
  apply Hline in Haudit as [Hl1 Hl2].
  destruct Hfail as [Hex|(df_raw & Hex & Htr)].
  - rewrite Hex. unfold failed_run, say. rewrite log_pipeline_run_eq.
    cbn [fst snd bq staging production pipeline_audit_log stdout].
    split; [done|]. split; [done|]. split; [done|]. split; [done|].
    rewrite <- !app_assoc. eexists. split; [reflexivity|].
    split; [|intros n]; intros Hin;
      repeat (apply elem_of_cons in Hin as [Hin|Hin];
              [first [discriminate Hin | by (symmetry in Hin; first [apply Hl1 in Hin | apply Hl2 in Hin])]|]);
      by apply elem_of_nil in Hin.
  - rewrite Hex. lazy beta iota zeta. rewrite Htr.
    unfold failed_run, say. rewrite log_pipeline_run_eq.
    cbn [fst snd bq staging production pipeline_audit_log stdout].
    split; [done|]. split; [done|]. split; [done|]. split; [done|].
    rewrite <- !app_assoc. eexists. split; [reflexivity|].
    split; [|intros n]; intros Hin;
      repeat (apply elem_of_cons in Hin as [Hin|Hin];
              [first [discriminate Hin | by (symmetry in Hin; first [apply Hl1 in Hin | apply Hl2 in Hin])]|]);
      by apply elem_of_nil in Hin.
Qed.

Lemma run_stops_before_load_witness :
  let r := run_pipeline env_no_source "snacks" world_old in
  fst r = Raise (SystemExit 1) ∧
  staging (bq (snd r)) = staging (bq world_old) ∧
  production (bq (snd r)) = production (bq world_old) ∧
  pipeline_audit_log (bq (snd r))
  = (pipeline_audit_log (bq world_old)
     ++ audit_entries env_no_source "FAILED" 0 (Some RequestTimeout))%list ∧
  ∃ out,
    stdout (snd r) = (stdout world_old ++ out)%list ∧
    (StageLoad ∉ out) ∧ (∀ n, StartingLoad n ∉ out).
Proof.
  apply (run_stops_before_load env_no_source "snacks" world_old RequestTimeout).
  left. exact eq_refl.
Defined.

Lemma transform_len_le now df out :
  transform_product_data now df = Ok out → (pd.len out ≤ pd.len df)%nat.
Proof.
  intros H. destruct (pd.empty df) eqn:Hne.
  - unfold transform_product_data in H. rewrite Hne in H. by injection H as <-.
  - destruct (transform_clean_records _ _ _ Hne H) as [_ Hrows].
    unfold pd.len. rewrite Hrows, length_map. apply keep_first_length.
Qed.

(** X14. When all three stages succeed on a non-empty clean batch, the
    run returns normally, staging and production both hold the clean
    batch with its timestamps written as strings, and the SUCCESS entry
    carries the number of rows of that table, which is never more than
    the number of rows extracted. *)
Theorem run_loads_clean_batch env category w df_raw df_clean total :
  extract_product_data env category 100 = Ok df_raw →
  transform_product_data (now env) df_raw = Ok df_clean →
  pd.empty df_clean = false →
  client_error env = None →
  staging_load_error env = None →
  swap_error env = None →
  count_query env = inr total →
  let r := run_pipeline env category w in
  fst r = Ok VNull ∧
  staging (bq (snd r)) = Some (df_load env df_clean) ∧
  production (bq (snd r)) = Some (df_load env df_clean) ∧
  pipeline_audit_log (bq (snd r))
  = (pipeline_audit_log (bq w)
     ++ audit_entries env "SUCCESS" (pd.len (df_load env df_clean)) None)%list ∧
  (pd.len (df_load env df_clean) ≤ pd.len df_raw)%nat.
Proof.
  intros Hex Htr He Hc Hs Hw Hq. cbv zeta. rewrite run_pipeline_eq. cbv zeta.
  rewrite Hex. lazy beta iota zeta. rewrite Htr. lazy beta iota zeta.
  rewrite load_nonempty_eq by done. cbv zeta. rewrite Hc, Hs, Hw, Hq.
  rewrite log_pipeline_run_eq.
  destruct (df_load_frame env df_clean) as (_ & -> & _).
  split; [done|]. split; [done|]. split; [done|]. split; [done|].
  by apply (transform_len_le (now env)).
Qed.

Lemma run_loads_clean_batch_witness :
  let r := run_pipeline env_ok "snacks" world_old in
  fst r = Ok VNull ∧
  staging (bq (snd r)) = Some (df_load env_ok example_out) ∧
  production (bq (snd r)) = Some (df_load env_ok example_out) ∧
  pipeline_audit_log (bq (snd r))
  = (pipeline_audit_log (bq world_old)
     ++ audit_entries env_ok "SUCCESS" (pd.len (df_load env_ok example_out)) None)%list ∧
  (pd.len (df_load env_ok example_out) ≤ pd.len (pd.from_records example_records))%nat.
Proof.
  apply (run_loads_clean_batch env_ok "snacks" world_old
           (pd.from_records example_records) example_out 5).
  - vm_compute. exact eq_refl.
  - exact example_out_Ok.
  - vm_compute. exact eq_refl.
  - exact eq_refl.
  - exact eq_refl.
  - exact eq_refl.
  - exact eq_refl.
Defined.

(** X15. A batch that is empty when extracted (no record, or records
    without any field) goes through the run untouched: the loader's
    external calls are not made, staging and production stay as they
    were, the run returns normally whatever the state of the warehouse
    connection, and the SUCCESS entry carries the length of the batch
    although nothing was loaded. *)
Theorem run_with_empty_batch env category w df_raw :
  extract_product_data env category 100 = Ok df_raw →
  pd.empty df_raw = true →
  let r := run_pipeline env category w in
  fst r = Ok VNull ∧
  staging (bq (snd r)) = staging (bq w) ∧
  production (bq (snd r)) = production (bq w) ∧
  pipeline_audit_log (bq (snd r))
  = (pipeline_audit_log (bq w)
     ++ audit_entries env "SUCCESS" (pd.len df_raw) None)%list ∧
  EmptySkipping ∈ stdout (snd r).
Proof.
  intros Hex He. cbv zeta. rewrite run_pipeline_eq. cbv zeta.
  rewrite Hex. lazy beta iota zeta.
  assert (Htr : transform_product_data (now env) df_raw = Ok df_raw)
    by (unfold transform_product_data; by rewrite He).
  rewrite Htr. lazy beta iota zeta.
  rewrite load_empty_eq by done. rewrite log_pipeline_run_eq. unfold say.
  cbn [fst snd bq staging production pipeline_audit_log stdout].
  split; [done|]. split; [done|]. split; [done|]. split; [done|].
  rewrite !elem_of_app. left. left. right.
  apply list_elem_of_further, list_elem_of_here.
Qed.

Lemma run_with_empty_batch_witness :
  let r := run_pipeline env_no_products "snacks" world_old in
  fst r = Ok VNull ∧
  staging (bq (snd r)) = staging (bq world_old) ∧
  production (bq (snd r)) = production (bq world_old) ∧
  pipeline_audit_log (bq (snd r))
  = (pipeline_audit_log (bq world_old)
     ++ audit_entries env_no_products "SUCCESS" (pd.len (pd.from_records [])) None)%list ∧
  EmptySkipping ∈ stdout (snd r).
Proof.
  apply (run_with_empty_batch env_no_products "snacks" world_old (pd.from_records []));
    exact eq_refl.
Defined.

Lemma load_result_world env df w1 w2 :
  fst (load_to_bigquery env df w1) = fst (load_to_bigquery env df w2).
Proof.
  destruct (pd.empty df) eqn:He.
  - by rewrite !load_empty_eq.
  - rewrite !load_nonempty_eq by done. cbv zeta.
    by destruct (client_error env), (staging_load_error env), (swap_error env),
      (count_query env).
Qed.

(** X16. The exit status of a run is 0 or 1, and it is 0 exactly when
    the extractor, the transformer and the loader all return; the audit
    sink has no part in it. *)
Theorem exit_status_tells_success env category w :
  let r := fst (run_pipeline env category w) in
  (exit_status r = 0 ∨ exit_status r = 1) ∧
  (exit_status r = 0 ↔
   ∃ df_raw df_clean,
     extract_product_data env category 100 = Ok df_raw ∧
     transform_product_data (now env) df_raw = Ok df_clean ∧
     fst (load_to_bigquery env df_clean w) = Ok VNull).
Proof.
  cbv zeta. rewrite run_pipeline_eq. cbv zeta. unfold failed_run.
  pose proof (extract_no_exit env category 100) as Hex.
  destruct (extract_product_data env category 100) as [df_raw|[e|code]] eqn:Eex;
    [| |done].
  - pose proof (transform_no_exit (now env) df_raw) as Htr.
    destruct (transform_product_data (now env) df_raw) as [df_clean|[e|code]] eqn:Etr;
      [| |done].
    + match goal with |- context [load_to_bigquery env df_clean ?w3] =>
        pose proof (load_result_world env df_clean w w3) as Hw;
        destruct (load_outcome env df_clean w3) as (r & st & pr & out & Hld & Hr & _)
      end.
      rewrite Hld in Hw |- *. cbn [fst] in Hw.
      destruct Hr as [->|[e ->]]; cbn [fst exit_status].
      * split; [by left|]. split; [|done]. intros _. by exists df_raw, df_clean.
      * split; [by right|]. split; [done|].
        intros (d & d' & [= <-] & Hd & Hok). rewrite Etr in Hd.
        injection Hd as <-. rewrite Hw in Hok. discriminate.
    + cbn [fst exit_status]. split; [by right|]. split; [done|].
      intros (d & d' & [= <-] & Hd & _). rewrite Etr in Hd. discriminate.
  - cbn [fst exit_status]. split; [by right|]. split; [done|].
    intros (? & ? & [=] & _).
Qed.

(** ** The Airflow tasks *)

Ltac unfold_task :=
  unfold extract_task, transform_task, load_task, xcom_pull, xcom_push,
    task_print, in_dag_world, bind, ret, of_res.

(** X18. [load_task] never records a failure: when reading the pushed
    batch or the load raises, the task raises the same, and appends
    nothing to the audit table; when the load returns, the task returns
    and the only entry it can append is a SUCCESS entry with the length
    of the batch it read. It pushes nothing to XCom. *)
Theorem load_task_records_success_only {Json} (read_json : option Json → res DataFrame)
    env ti (a : Airflow Json) :
  let r := load_task read_json env ti a in
  xcom (snd r) = xcom a ∧
  ((∃ x, fst r = Raise x ∧
         pipeline_audit_log (bq (dag_world (snd r)))
         = pipeline_audit_log (bq (dag_world a)) ∧
         task_log (snd r) = task_log a ∧
         (read_json (xcom a !! ("transform", "clean_data")) = Raise x ∨
          ∃ df_clean,
            read_json (xcom a !! ("transform", "clean_data")) = Ok df_clean ∧
            fst (load_to_bigquery env df_clean (dag_world a)) = Raise x)) ∨
   (∃ df_clean,
       fst r = Ok VNull ∧
       read_json (xcom a !! ("transform", "clean_data")) = Ok df_clean ∧
       fst (load_to_bigquery env df_clean (dag_world a)) = Ok VNull ∧
       pipeline_audit_log (bq (dag_world (snd r)))
       = (pipeline_audit_log (bq (dag_world a))
          ++ audit_entries env "SUCCESS" (pd.len df_clean) None)%list ∧
       task_log (snd r) = (task_log a ++ [RowsLoaded (pd.len df_clean)])%list)).
Proof.
  cbv zeta. unfold_task.
  destruct (read_json (xcom a !! ("transform", "clean_data"))) as [df_clean|x] eqn:Hread.
  - destruct (load_outcome env df_clean (dag_world a))
      as (r & st & pr & out & Hld & Hr & _).
    rewrite Hld. destruct Hr as [->|[e ->]].
    + rewrite log_pipeline_run_eq.
      cbn [fst snd xcom task_log dag_world bq pipeline_audit_log].
      split; [done|]. right. exists df_clean. by rewrite Hld.
    + cbn [fst snd xcom task_log dag_world bq pipeline_audit_log].
      split; [done|]. left. eexists. split; [done|].
      split; [done|]. split; [done|]. right. exists df_clean. by rewrite Hld.
  - cbn [fst snd]. split; [done|]. left. exists x. by auto.
Qed.

(** ** One record per code, and the defaults *)










(** A batch of records without any field passes through as it is: its
    records have none of the six fields. *)
Lemma transform_fieldless_no_defaults :
  transform_product_data 7 (pd.from_records fieldless_records)
  = Ok (pd.from_records fieldless_records) ∧
  pd.len (pd.from_records fieldless_records) = 2%nat ∧
  ∀ r f d, r ∈ rows (pd.from_records fieldless_records) →
           (f, d) ∈ defaults → r !! f = None.
Proof.
  split; [vm_compute; exact eq_refl|]. split; [vm_compute; exact eq_refl|].
  intros r f d Hr _. rewrite (from_records_lookup _ _ _ Hr).
  rewrite decide_False; [done|]. vm_compute. by intros ?%elem_of_nil.
Qed.

(** ** More on the transformer: order of the codes *)

Lemma keep_first_first_occurrences col (P : value → Prop) `{!∀ v, Decision (P v)}
    seen (l : list Row) :
  filter P (map (λ r, cell r col) (keep_first col seen l))
  = first_occurrences (filter P seen) (filter P (map (λ r, cell r col) l)).
Proof.
  revert seen. induction l as [|r l IH]; intros seen; [done|].
  cbn [keep_first map]. destruct (decide (P (cell r col))) as [HP|HP].
  - rewrite (filter_cons_True P (cell r col)) by done. cbn [first_occurrences].
    specialize (IH (cell r col :: seen)). rewrite filter_cons_True in IH by done.
    destruct (decide (cell r col ∈ seen)) as [Hs|Hs].
    + rewrite decide_True by (by apply list_elem_of_filter). apply IH.
    + rewrite decide_False by (by intros [_ ?]%list_elem_of_filter).
      cbn [map]. rewrite filter_cons_True by done. by rewrite IH.
  - rewrite (filter_cons_False P (cell r col)) by done.
    specialize (IH (cell r col :: seen)). rewrite filter_cons_False in IH by done.
    destruct (decide (cell r col ∈ seen)); [apply IH|].
    cbn [map]. rewrite filter_cons_False by done. apply IH.
Qed.

(** X2. On a non-empty frame the codes of the output that are strings
    (or integers a float holds exactly) are those codes of the input
    with the later repetitions removed, in the input's order; the
    output has every code of the input and no other, is not empty, and
    never has more records than the input. *)
Theorem transform_keeps_order now df out :
  pd.empty df = false →
  transform_product_data now df = Ok out →
  filter (λ v, exact_key v = true) (codes out)
  = first_occurrences [] (filter (λ v, exact_key v = true) (codes df)) ∧
  (∀ c, c ∈ codes out ↔ c ∈ codes df) ∧
  pd.empty out = false ∧
  (pd.len out ≤ pd.len df)%nat.
Proof.
  intros Hne H.
  destruct (transform_clean_records _ _ _ Hne H) as [Hin Hrows].
  pose proof (transform_columns _ _ _ Hne H) as Hcols.
  assert (Hcode : "code" ∈ columns df) by apply Hin, list_elem_of_here.
  assert (Hcodes : codes out = map (λ r, cell r "code") (keep_first "code" [] (rows df))).
  { unfold codes. rewrite Hrows, map_map. apply map_ext. intros r.
    by apply cell_clean_record_code. }
  split; [|split; [|split]].
  - rewrite Hcodes. unfold codes.
    by rewrite (keep_first_first_occurrences "code" (λ v, exact_key v = true) []).
  - intros c. rewrite Hcodes. unfold codes. rewrite !elem_of_map. split.
    + intros (k & -> & [Hk _]%keep_first_elem). by exists k.
    + intros (r0 & -> & Hr0).
      destruct (keep_first_filter "code" [] (rows df) r0 Hr0) as (first & _ & Hfilter);
        [apply not_elem_of_nil|].
      assert (Hf : first ∈ filter (λ k, cell k "code" = cell r0 "code")
                                  (keep_first "code" [] (rows df)))
        by (rewrite Hfilter; apply list_elem_of_here).
      apply list_elem_of_filter in Hf as [Hc Hf]. by exists first.
  - unfold pd.empty. apply orb_false_iff. split; apply bool_decide_eq_false_2.
    + rewrite Hcols. unfold output_columns. cbv zeta.
      intros [_ [=]]%app_eq_nil.
    + rewrite Hrows. destruct (keep_first_head "code" (rows df)) as (k & l & ->).
      { unfold pd.empty in Hne. apply orb_false_iff in Hne as [_ Hr].
        by apply bool_decide_eq_false_1 in Hr. }
      done.
  - unfold pd.len. rewrite Hrows, length_map. apply keep_first_length.
Qed.

Lemma transform_keeps_order_witness :
  filter (λ v, exact_key v = true) (codes example_out)
  = first_occurrences []
      (filter (λ v, exact_key v = true) (codes (pd.from_records example_records))) ∧
  (∀ c, c ∈ codes example_out ↔ c ∈ codes (pd.from_records example_records)) ∧
  pd.empty example_out = false ∧
  (pd.len example_out ≤ pd.len (pd.from_records example_records))%nat.
Proof.
  apply (transform_keeps_order 7 (pd.from_records example_records) example_out).
  - vm_compute. exact eq_refl.
  - vm_compute. exact eq_refl.
Defined.

(** ** More on the transformer: timestamps, text, errors *)

Lemma to_datetime_is_datetime v : is_datetime (pd.to_datetime_value v) = true.
Proof. unfold pd.to_datetime_value. destruct v; try done. by destruct (_ && _). Qed.

(** X4. The raw [last_modified_t] never reaches the output. When the
    input lacks that column the output has no date; when the input has
    it, every returned record has a [last_modified_date], a timestamp
    or [NaT], taken from an input record with the same code (the first
    one, when the code is a string or an integer a float holds
    exactly): the timestamp of its second count when that is an integer
    within the range of a timestamp, [NaT] when it is null. *)
Theorem transform_converts_timestamp now df out :
  pd.empty df = false →
  transform_product_data now df = Ok out →
  ∀ r, r ∈ rows out →
    r !! "last_modified_t" = None ∧
    ("last_modified_t" ∉ columns df → r !! "last_modified_date" = None) ∧
    ("last_modified_t" ∈ columns df →
     ∃ t src,
       r !! "last_modified_date" = Some t ∧ is_datetime t = true ∧
       src ∈ rows df ∧ cell src "code" = cell r "code" ∧
       (exact_key (cell r "code") = true →
        List.find (λ r', bool_decide (cell r' "code" = cell r "code")) (rows df)
        = Some src) ∧
       (∀ n, cell src "last_modified_t" = VNum n →
             is_epoch_seconds (VNum n) = true → t = VTime n) ∧
       (isna (cell src "last_modified_t") = true → t = VNaT)).
Proof.
  intros Hne H r Hr.
  destruct (transform_clean_records _ _ _ Hne H) as [Hin Hrows].
  rewrite Hrows in Hr. apply elem_of_map in Hr as (k & -> & Hk).
  assert (Hcode : "code" ∈ columns df) by apply Hin, list_elem_of_here.
  pose proof (keep_first_elem _ _ _ _ Hk) as [Hkin _].
  assert (Hfind :
    List.find (λ r', bool_decide (cell r' "code"
                                  = cell (clean_record (columns df) now k) "code"))
              (rows df) = Some k).
  { rewrite cell_clean_record_code by done.
    by apply (keep_first_is_first "code" []). }
  assert (Hsame : cell k "code" = cell (clean_record (columns df) now k) "code")
    by (by rewrite cell_clean_record_code).
  revert Hfind Hsame. generalize (cell (clean_record (columns df) now k) "code").
  intros c Hfind Hsame.
  unfold clean_record.
  set (cp := filter (λ col, col ∈ columns df) columns_needed).
  destruct (lookup_clean_row_timestamp
              (bool_decide ("last_modified_t" ∈ columns df)) now (pd.reindex cp k))
    as [Ht Hd].
  assert (Hts : "last_modified_t" ∈ cp ↔ "last_modified_t" ∈ columns df).
  { split; [by intros [_ ?]%present_needed|]. intros. apply list_elem_of_filter.
    split; [done|]. unfold columns_needed.
    do 7 apply list_elem_of_further. apply list_elem_of_here. }
  split; [|split].
  - rewrite Ht. case_bool_decide as Hc; [done|].
    rewrite lookup_reindex. by rewrite decide_False by (by rewrite Hts).
  - intros Hn. rewrite Hd, bool_decide_eq_false_2 by done. rewrite lookup_reindex.
    rewrite decide_False; [done|].
    intros [Hd' _]%present_needed. revert Hd'. apply not_needed, list_elem_of_here.
  - intros Hy. rewrite Hd, bool_decide_eq_true_2 by done.
    rewrite cell_reindex by (by apply Hts).
    eexists _, k. split; [done|]. split.
    { apply to_datetime_is_datetime. }
    split; [done|]. split; [done|]. split; [done|]. split.
    + intros n -> Hrange. unfold is_epoch_seconds in Hrange.
      unfold pd.to_numeric_value, pd.to_datetime_value. by rewrite Hrange.
    + intros Hna. by destruct (cell k "last_modified_t").
Qed.

Lemma transform_converts_timestamp_witness :
  cola_out !! "last_modified_t" = None ∧
  ("last_modified_t" ∉ columns (pd.from_records example_records) →
   cola_out !! "last_modified_date" = None) ∧
  ("last_modified_t" ∈ columns (pd.from_records example_records) →
   ∃ t src,
     cola_out !! "last_modified_date" = Some t ∧ is_datetime t = true ∧
     src ∈ rows (pd.from_records example_records) ∧
     cell src "code" = cell cola_out "code" ∧
     (exact_key (cell cola_out "code") = true →
      List.find (λ r', bool_decide (cell r' "code" = cell cola_out "code"))
                (rows (pd.from_records example_records))
      = Some src) ∧
     (∀ n, cell src "last_modified_t" = VNum n →
           is_epoch_seconds (VNum n) = true → t = VTime n) ∧
     (isna (cell src "last_modified_t") = true → t = VNaT)).
Proof.
  apply (transform_converts_timestamp 7 (pd.from_records example_records) example_out).
  - vm_compute. exact eq_refl.
  - vm_compute. exact eq_refl.
  - apply list_elem_of_lookup_2 with 0%nat. vm_compute. exact eq_refl.
Defined.

(** X5. Product name and nutrition grade of a returned record come
    from an input record with the same code (the first one, when the
    code is a string or an integer a float holds exactly). When the
    value there is null the default comes out; when it is an ASCII
    string, that string stripped and title-cased (lower-cased for the
    grade) comes out, and a further [strip] and [title] (or [lower])
    leave it as it is. *)
Theorem transform_normalizes_text now df out :
  pd.empty df = false →
  transform_product_data now df = Ok out →
  ∀ r, r ∈ rows out →
    ∃ src,
      src ∈ rows df ∧ cell src "code" = cell r "code" ∧
      (exact_key (cell r "code") = true →
       List.find (λ r', bool_decide (cell r' "code" = cell r "code")) (rows df)
       = Some src) ∧
      (isna (cell src "product_name") = true →
       r !! "product_name" = Some (VStr "Unknown Product")) ∧
      (isna (cell src "nutriscore_grade") = true →
       r !! "nutriscore_grade" = Some (VStr "not_rated")) ∧
      (∀ s, cell src "product_name" = VStr s → Str.is_ascii s = true →
            ∃ n, r !! "product_name" = Some (VStr n) ∧
                 n = Str.title (Str.strip s) ∧
                 Str.strip n = n ∧ Str.title n = n) ∧
      (∀ s, cell src "nutriscore_grade" = VStr s → Str.is_ascii s = true →
            ∃ g, r !! "nutriscore_grade" = Some (VStr g) ∧
                 g = Str.lower (Str.strip s) ∧
                 Str.strip g = g ∧ Str.lower g = g).
Proof.
  intros Hne H r Hr.
  destruct (transform_clean_records _ _ _ Hne H) as [Hin Hrows].
  rewrite Hrows in Hr. apply elem_of_map in Hr as (k & -> & Hk).
  assert (Hcode : "code" ∈ columns df) by apply Hin, list_elem_of_here.
  pose proof (keep_first_elem _ _ _ _ Hk) as [Hkin _].
  exists k. split; [done|]. split; [by rewrite cell_clean_record_code|]. split.
  { intros _. rewrite cell_clean_record_code by done.
    by apply (keep_first_is_first "code" []). }
  unfold clean_record.
  set (cp := filter (λ col, col ∈ columns df) columns_needed).
  assert (Hcp : ∀ c, c ∈ ["product_name"; "nutriscore_grade"] →
                     cell (pd.reindex cp k) c = cell k c).
  { intros c Hc. apply cell_reindex, list_elem_of_filter.
    repeat (apply elem_of_cons in Hc as [->|Hc]); [| |by apply elem_of_nil in Hc].
    - split; [apply Hin|unfold columns_needed];
        repeat first [apply list_elem_of_here | apply list_elem_of_further].
    - split; [apply Hin|unfold columns_needed];
        repeat first [apply list_elem_of_here | apply list_elem_of_further]. }
  rewrite lookup_clean_row_name, lookup_clean_row_grade.
  rewrite !Hcp by (repeat first [apply list_elem_of_here | apply list_elem_of_further]).
  split; [|split; [|split]].
  - intros ->. vm_compute. exact eq_refl.
  - intros ->. vm_compute. exact eq_refl.
  - intros s -> _. cbn [isna pd.str_method]. eexists. split; [done|]. split; [done|].
    split; [apply strip_title_strip | apply title_from_idemp].
  - intros s -> _. cbn [isna pd.str_method]. eexists. split; [done|]. split; [done|].
    split; [apply strip_lower_strip | apply lower_idemp].
Qed.

Lemma transform_normalizes_text_witness :
  ∃ src,
    src ∈ rows (pd.from_records example_records) ∧
    cell src "code" = cell cola_out "code" ∧
    (exact_key (cell cola_out "code") = true →
     List.find (λ r', bool_decide (cell r' "code" = cell cola_out "code"))
               (rows (pd.from_records example_records))
     = Some src) ∧
    (isna (cell src "product_name") = true →
     cola_out !! "product_name" = Some (VStr "Unknown Product")) ∧
    (isna (cell src "nutriscore_grade") = true →
     cola_out !! "nutriscore_grade" = Some (VStr "not_rated")) ∧
    (∀ s, cell src "product_name" = VStr s → Str.is_ascii s = true →
          ∃ n, cola_out !! "product_name" = Some (VStr n) ∧
               n = Str.title (Str.strip s) ∧
               Str.strip n = n ∧ Str.title n = n) ∧
    (∀ s, cell src "nutriscore_grade" = VStr s → Str.is_ascii s = true →
          ∃ g, cola_out !! "nutriscore_grade" = Some (VStr g) ∧
               g = Str.lower (Str.strip s) ∧
               Str.strip g = g ∧ Str.lower g = g).
Proof.
  apply (transform_normalizes_text 7 (pd.from_records example_records) example_out).
  - vm_compute. exact eq_refl.
  - vm_compute. exact eq_refl.
  - apply list_elem_of_lookup_2 with 0%nat. vm_compute. exact eq_refl.
Defined.

(** [df[c]] on the frame [D] with columns [cp]: either the column is
    there, or the goal is the [KeyError] case. *)
Ltac column_or_fail D c HC Hin :=
  destruct (decide (c ∈ columns D)) as [Hin|Hin];
  [ rewrite (getitem_in D c Hin); cbn [res_bind]
  | rewrite (getitem_notin D c Hin); cbn [res_bind];
    rewrite HC in Hin;
    intros [= <-]; right; left; exists c; split; [done|]; split;
    [ repeat first [apply list_elem_of_here | apply list_elem_of_further]
    | intros ?; apply Hin, list_elem_of_filter; split; [done|];
      unfold columns_needed;
      repeat first [apply list_elem_of_here | apply list_elem_of_further] ] ].

Ltac accessor_or_fail :=
  lazymatch goal with
  | |- context [pd.str ?S] =>
      destruct (str_cases S) as [-> | ->]; cbn [res_bind];
      [ | intros [= <-]; right; right; eexists; split; [done|] ]
  end.

(** X6. On a frame whose second counts are null or integers within the
    range of a timestamp, the transformer raises one of three things:
    [KeyError(Index(['code']))] when the frame lacks the [code] column;
    a [KeyError] for one of the six defaulted columns, which the frame
    lacks; or, with all seven columns there, the [AttributeError] of
    the [.str] accessor. *)
Theorem transform_error_kinds now df x :
  ("last_modified_t" ∈ columns df →
   ∀ r, r ∈ rows df →
     isna (cell r "last_modified_t") = true ∨
     is_epoch_seconds (cell r "last_modified_t") = true) →
  transform_product_data now df = Raise x →
  (x = Exception (KeyErrorIndex ["code"]) ∧ "code" ∉ columns df) ∨
  (∃ k, x = Exception (KeyError k) ∧
        k ∈ ["product_name"; "categories"; "stores"; "countries";
             "nutriscore_grade"; "quantity"] ∧
        k ∉ columns df) ∨
  (∃ msg, x = Exception (AttributeError msg) ∧
          ∀ c, c ∈ ["code"; "product_name"; "categories"; "stores"; "countries";
                    "nutriscore_grade"; "quantity"] → c ∈ columns df).
Proof.
  intros _. unfold transform_product_data. destruct (pd.empty df) eqn:Hne; [discriminate|].
  set (cp := filter (λ col, col ∈ columns df) columns_needed).
  rewrite getitems_present. fold cp. cbn [res_bind].
  unfold pd.drop_duplicates, pd.duplicated.
  set (df0 := {| columns := cp; rows := map (pd.reindex cp) (rows df) |}).
  assert (HC0 : columns df0 = cp) by done.
  destruct (decide ("code" ∈ columns df0)) as [Hcode|Hcode];
    [| rewrite HC0 in Hcode; intros [= <-]; left; split; [done|];
       intros ?; apply Hcode, list_elem_of_filter; split; [done|];
       apply list_elem_of_here ].
  subst df0. cbv zeta. cbn [res_bind rows columns] in *.
  rewrite drop_duplicates_keep_first.
  set (base := keep_first "code" [] (map (pd.reindex cp) (rows df))) in *.
  set (df1 := {| columns := cp; rows := base |}).
  assert (HC : columns df1 = cp) by done.
  assert (HR : rows df1 = map (λ r, r) base) by (by rewrite map_id).
  clearbody df1.
  column_or_fail df1 "product_name" HC Hin. pose proof Hin as Hname. rewrite HC in Hname.
  fwd_setitem df1 df2 Hin HC HR rows_fill.
  column_or_fail df2 "categories" HC Hin. pose proof Hin as Hcat. rewrite HC in Hcat.
  fwd_setitem df2 df3 Hin HC HR rows_fill.
  column_or_fail df3 "stores" HC Hin. pose proof Hin as Hsto. rewrite HC in Hsto.
  fwd_setitem df3 df4 Hin HC HR rows_fill.
  column_or_fail df4 "countries" HC Hin. pose proof Hin as Hcou. rewrite HC in Hcou.
  fwd_setitem df4 df5 Hin HC HR rows_fill.
  column_or_fail df5 "nutriscore_grade" HC Hin. pose proof Hin as Hgra. rewrite HC in Hgra.
  fwd_setitem df5 df6 Hin HC HR rows_fill.
  column_or_fail df6 "quantity" HC Hin. pose proof Hin as Hqua. rewrite HC in Hqua.
  fwd_setitem df6 df7 Hin HC HR rows_fill.
  assert (Hall : ∀ c, c ∈ ["code"; "product_name"; "categories"; "stores";
                           "countries"; "nutriscore_grade"; "quantity"] →
                      c ∈ columns df).
  { intros c Hc.
    repeat (apply elem_of_cons in Hc as [->|Hc]);
      [| | | | | | | by apply elem_of_nil in Hc];
      match goal with H : ?c ∈ cp |- ?c ∈ _ => by apply present_needed in H as [_ ?] end. }
  unfold pd.str_strip, pd.str_title, pd.str_lower.
  column_or_fail df7 "product_name" HC Hin.
  accessor_or_fail; [|done]. accessor_or_fail; [|done].
  fwd_setitem df7 df8 Hin HC HR rows_normalize.
  column_or_fail df8 "nutriscore_grade" HC Hin.
  accessor_or_fail; [|done]. accessor_or_fail; [|done].
  fwd_setitem df8 df9 Hin HC HR rows_normalize.
  (* the remaining steps return *)
  assert (Hn : "product_name" ∈ columns df9) by (by rewrite HC).
  assert (Hg : "nutriscore_grade" ∈ columns df9) by (by rewrite HC).
  case_decide as Hts.
  - rewrite getitem_in by done. cbn [res_bind].
    rewrite getitem_in by (by apply elem_columns_setitem). cbn [res_bind].
    unfold pd.drop_column.
    rewrite decide_True by (by do 2 apply elem_columns_setitem).
    cbn [res_bind].
    match goal with |- ?t = _ → _ =>
      destruct (stamp_flag_returns now
                  {| columns := filter (λ c, c ≠ "last_modified_t")
                       (columns (pd.setitem
                          (pd.setitem df9 "last_modified_t"
                             (pd.to_numeric (map (λ r, cell r "last_modified_t") (rows df9))))
                          "last_modified_date"
                          (pd.to_datetime
                             (map (λ r, cell r "last_modified_t")
                                (rows (pd.setitem df9 "last_modified_t"
                                   (pd.to_numeric
                                      (map (λ r, cell r "last_modified_t") (rows df9)))))))));
                     rows := map (delete "last_modified_t")
                       (rows (pd.setitem
                          (pd.setitem df9 "last_modified_t"
                             (pd.to_numeric (map (λ r, cell r "last_modified_t") (rows df9))))
                          "last_modified_date"
                          (pd.to_datetime
                             (map (λ r, cell r "last_modified_t")
                                (rows (pd.setitem df9 "last_modified_t"
                                   (pd.to_numeric
                                      (map (λ r, cell r "last_modified_t") (rows df9))))))))) |})
        as [out Hout]
    end.
    + cbn [columns]. apply list_elem_of_filter. split; [done|].
      by do 2 apply elem_columns_setitem.
    + cbn [columns]. apply list_elem_of_filter. split; [done|].
      by do 2 apply elem_columns_setitem.
    + cbv zeta in Hout. rewrite Hout. discriminate.
  - cbn [res_bind]. destruct (stamp_flag_returns now df9 Hn Hg) as [out Hout].
    cbv zeta in Hout. rewrite Hout. discriminate.
Qed.


Lemma transform_error_kinds_witness :
  (Exception (KeyError "categories") = Exception (KeyErrorIndex ["code"]) ∧
   "code" ∉ columns (pd.from_records [delete "categories" cola])) ∨
  (∃ k, Exception (KeyError "categories") = Exception (KeyError k) ∧
        k ∈ ["product_name"; "categories"; "stores"; "countries";
             "nutriscore_grade"; "quantity"] ∧
        k ∉ columns (pd.from_records [delete "categories" cola])) ∨
  (∃ msg, Exception (KeyError "categories") = Exception (AttributeError msg) ∧
          ∀ c, c ∈ ["code"; "product_name"; "categories"; "stores"; "countries";
                    "nutriscore_grade"; "quantity"] →
               c ∈ columns (pd.from_records [delete "categories" cola])).
Proof.
  apply (transform_error_kinds 0 (pd.from_records [delete "categories" cola])).
  - intros _ r Hr. simpl in Hr. apply list_elem_of_singleton in Hr as ->.
    right. vm_compute. exact eq_refl.
  - vm_compute. exact eq_refl.
Defined.

(** X7. On a non-empty frame that has the seven read columns, in which
    every product name and every nutrition grade is a string or null
    and every second count is null or an integer within the range of a
    timestamp, the transformer returns a frame. *)
Theorem transform_returns now df :
  pd.empty df = false →
  (∀ c, c ∈ ["code"; "product_name"; "categories"; "stores"; "countries";
             "nutriscore_grade"; "quantity"] → c ∈ columns df) →
  (∀ r, r ∈ rows df →
        is_text (cell r "product_name") = true ∧
        is_text (cell r "nutriscore_grade") = true) →
  ("last_modified_t" ∈ columns df →
   ∀ r, r ∈ rows df →
     isna (cell r "last_modified_t") = true ∨
     is_epoch_seconds (cell r "last_modified_t") = true) →
  ∃ out, transform_product_data now df = Ok out.
Proof. intros Hne Hcols Htext _. by apply transform_returns_on_text. Qed.

Lemma transform_returns_witness :
  ∃ out, transform_product_data 7 (pd.from_records [cola; cola_again]) = Ok out.
Proof.
  apply (transform_returns 7 (pd.from_records [cola; cola_again])).
  - vm_compute. exact eq_refl.
  - intros c Hc.
    repeat (apply elem_of_cons in Hc as [->|Hc]);
      [| | | | | | | by apply elem_of_nil in Hc];
      (refine (bool_decide_eq_true_1 _ _); vm_compute; exact eq_refl).
  - intros r Hr. simpl in Hr.
    repeat (apply elem_of_cons in Hr as [->|Hr]);
      [| | by apply elem_of_nil in Hr]; vm_compute; split; exact eq_refl.
  - intros _ r Hr. simpl in Hr.
    repeat (apply elem_of_cons in Hr as [->|Hr]);
      [| | by apply elem_of_nil in Hr]; vm_compute; [right|left]; exact eq_refl.
Defined.

(** ** A run after a run *)

(** The time of the transformation decides nothing but the stamp. *)
Lemma transform_same_outcome now1 now2 df :
  same_outcome (transform_product_data now1 df) (transform_product_data now2 df).
Proof.
  unfold transform_product_data. destruct (pd.empty df); [done|]. cbv zeta.
  repeat lazymatch goal with
  | |- same_outcome (res_bind ?r _) (res_bind ?r _) =>
      destruct r as [?|?]; cbn [res_bind]; [|done]
  end.
  unfold pd.getitem. cbn [columns pd.setitem_scalar pd.loc_set].
  repeat lazymatch goal with
  | |- same_outcome (res_bind (res_bind (if ?c then _ else _) _) _)
                    (res_bind (res_bind (if ?c then _ else _) _) _) =>
      destruct c; cbn [res_bind]; [|done]
  end.
  done.
Qed.

Lemma clean_row_lookup_now b now1 now2 r k :
  k ≠ "extracted_at" → clean_row b now1 r !! k = clean_row b now2 r !! k.
Proof.
  intros Hk. unfold clean_row. cbv zeta.
  generalize (if b
              then convert_timestamp
                     (normalize "nutriscore_grade" Str.lower
                        (normalize "product_name" Str.title (fill_defaults r)))
              else normalize "nutriscore_grade" Str.lower
                     (normalize "product_name" Str.title (fill_defaults r))).
  intros r0. destruct (decide (k = "quality_flag")) as [->|Hq].
  - rewrite !lookup_flag_eq. unfold cell. by rewrite !lookup_stamp_ne by done.
  - rewrite !lookup_flag_ne by done. unfold stamp.
    destruct (decide (k = "pipeline_version")) as [->|Hp].
    + by rewrite !lookup_insert_eq.
    + by rewrite !lookup_insert_ne by done.
Qed.

Lemma astype_str_env env1 env2 v :
  time_str env2 = time_str env1 → astype_str env2 v = astype_str env1 v.
Proof. intros Ht. destruct v; try done. simpl. by rewrite Ht. Qed.

Lemma forallb_map_ext {A B} (f : B → bool) (g1 g2 : A → B) (l : list A) :
  (∀ x, f (g1 x) = f (g2 x)) → forallb f (map g1 l) = forallb f (map g2 l).
Proof. intros Hg. induction l as [|x l IH]; [done|]. simpl. by rewrite Hg, IH. Qed.

(** The frames two transformations of the same rows give, once made
    ready for staging, differ in the stamp only. *)
Lemma df_load_same_but env1 env2 now1 now2 cols (C : list string) (kept : list Row) :
  time_str env2 = time_str env1 →
  same_but "extracted_at"
    (df_load env1 (mkDF C (map (clean_record cols now1) kept)))
    (df_load env2 (mkDF C (map (clean_record cols now2) kept))).
Proof.
  intros Ht.
  assert (Hcell : ∀ r c, c ≠ "extracted_at" →
            cell (clean_record cols now1 r) c = cell (clean_record cols now2 r) c).
  { intros r c Hc. unfold cell, clean_record.
    by rewrite (clean_row_lookup_now _ now1 now2). }
  assert (Hdt : datetime_columns (mkDF C (map (clean_record cols now1) kept))
                = datetime_columns (mkDF C (map (clean_record cols now2) kept))).
  { unfold datetime_columns. cbn [columns rows]. apply list_filter_iff. intros c.
    rewrite (forallb_map_ext (λ r, is_datetime (cell r c))
               (clean_record cols now1) (clean_record cols now2)); [done|].
    intros r. destruct (decide (c = "extracted_at")) as [->|Hc].
    - unfold cell, clean_record.
      destruct (lookup_clean_row_stamp
                  (bool_decide ("last_modified_t" ∈ cols)) now1
                  (pd.reindex (filter (λ col, col ∈ cols) columns_needed) r)) as [-> _].
      destruct (lookup_clean_row_stamp
                  (bool_decide ("last_modified_t" ∈ cols)) now2
                  (pd.reindex (filter (λ col, col ∈ cols) columns_needed) r)) as [-> _].
      done.
    - by rewrite Hcell. }
  unfold df_load. rewrite <- Hdt.
  set (t1 := mkDF C (map (clean_record cols now1) kept)).
  set (t2 := mkDF C (map (clean_record cols now2) kept)).
  assert (Hin : ∀ c, c ∈ datetime_columns t1 → c ∈ C).
  { intros c Hc. unfold datetime_columns in Hc.
    by apply list_elem_of_filter in Hc as [_ ?]. }
  destruct (stringify_columns_frame env1 t1 (datetime_columns t1) Hin) as [HC1 HR1].
  destruct (stringify_columns_frame env2 t2 (datetime_columns t1) Hin) as [HC2 HR2].
  split; [by rewrite HC1, HC2|].
  rewrite HR1, HR2. subst t1 t2. cbn [rows]. rewrite !map_map, !map_fmap.
  apply Forall2_fmap, Forall_Forall2_diag, Forall_forall. intros r _ k Hk.
  rewrite !lookup_stringify_cells.
  case_decide.
  - by rewrite Hcell, (astype_str_env env1 env2).
  - unfold clean_record. by rewrite (clean_row_lookup_now _ now1 now2).
Qed.

Lemma same_but_refl c t : same_but c t t.
Proof. split; [done|]. by apply Forall_Forall2_diag, Forall_forall. Qed.

Lemma option_same_but_refl c (t : option DataFrame) :
  option_Forall2 (same_but c) t t.
Proof. destruct t; constructor. apply same_but_refl. Qed.

Lemma transform_nonempty now df out :
  pd.empty df = false → transform_product_data now df = Ok out → pd.empty out = false.
Proof.
  intros Hne H.
  destruct (transform_clean_records _ _ _ Hne H) as [_ Hrows].
  pose proof (transform_columns _ _ _ Hne H) as Hcols.
  unfold pd.empty. apply orb_false_iff. split; apply bool_decide_eq_false_2.
  - rewrite Hcols. unfold output_columns. cbv zeta. intros [_ [=]]%app_eq_nil.
  - rewrite Hrows. destruct (keep_first_head "code" (rows df)) as (k & l & ->).
    { unfold pd.empty in Hne. apply orb_false_iff in Hne as [_ Hr].
      by apply bool_decide_eq_false_1 in Hr. }
    done.
Qed.

(** What a run does to a table: [None] leaves it, [Some t] writes [t]. *)
Ltac run_steps :=
  intros w; rewrite run_pipeline_eq; cbv zeta;
  repeat match goal with
  | H : extract_product_data _ _ _ = _ |- _ => rewrite H; lazy beta iota zeta
  | H : transform_product_data _ _ = _ |- _ => rewrite H; lazy beta iota zeta
  end;
  first [ rewrite load_empty_eq by done
        | rewrite load_nonempty_eq by done; cbv zeta
        | idtac ];
  repeat match goal with
  | H : client_error _ = _ |- _ => rewrite H
  | H : staging_load_error _ = _ |- _ => rewrite H
  | H : swap_error _ = _ |- _ => rewrite H
  | H : count_query _ = _ |- _ => rewrite H
  end;
  unfold failed_run; rewrite log_pipeline_run_eq; done.

Lemma run_pair env1 env2 category :
  http_get env2 = http_get env1 →
  client_error env2 = client_error env1 →
  staging_load_error env2 = staging_load_error env1 →
  swap_error env2 = swap_error env1 →
  count_query env2 = count_query env1 →
  time_str env2 = time_str env1 →
  ∃ (r : res value) (ws1 ws2 wp1 wp2 : option DataFrame),
    option_Forall2 (same_but "extracted_at") ws1 ws2 ∧
    option_Forall2 (same_but "extracted_at") wp1 wp2 ∧
    (ws1 = None ↔ ws2 = None) ∧ (wp1 = None ↔ wp2 = None) ∧
    (∀ w, fst (run_pipeline env1 category w) = r ∧
          staging (bq (snd (run_pipeline env1 category w)))
          = from_option Some (staging (bq w)) ws1 ∧
          production (bq (snd (run_pipeline env1 category w)))
          = from_option Some (production (bq w)) wp1) ∧
    (∀ w, fst (run_pipeline env2 category w) = r ∧
          staging (bq (snd (run_pipeline env2 category w)))
          = from_option Some (staging (bq w)) ws2 ∧
          production (bq (snd (run_pipeline env2 category w)))
          = from_option Some (production (bq w)) wp2).
Proof.
  intros Hhttp Hc Hs Hw Hq Ht.
  assert (Hex2 : extract_product_data env2 category 100
                 = extract_product_data env1 category 100)
    by (unfold extract_product_data; by rewrite Hhttp).
  pose proof (extract_no_exit env1 category 100) as Hex.
  destruct (extract_product_data env1 category 100) as [df_raw|[e|code]] eqn:Eex;
    [| |done].
  2:{ exists (Raise (SystemExit 1)), None, None, None, None.
      split; [constructor|]. split; [constructor|]. split; [done|]. split; [done|].
      split; run_steps. }
  pose proof (transform_same_outcome (now env1) (now env2) df_raw) as Hsame.
  pose proof (transform_no_exit (now env1) df_raw) as Htr.
  destruct (transform_product_data (now env1) df_raw) as [clean1|[e|code]] eqn:Etr1;
    [| |done];
    destruct (transform_product_data (now env2) df_raw) as [clean2|x2] eqn:Etr2;
    try done.
  2:{ simpl in Hsame. subst x2.
      exists (Raise (SystemExit 1)), None, None, None, None.
      split; [constructor|]. split; [constructor|]. split; [done|]. split; [done|].
      split; run_steps. }
  destruct (pd.empty df_raw) eqn:Hraw.
  { assert (clean1 = df_raw) as ->
      by (unfold transform_product_data in Etr1; rewrite Hraw in Etr1; congruence).
    assert (clean2 = df_raw) as ->
      by (unfold transform_product_data in Etr2; rewrite Hraw in Etr2; congruence).
    exists (Ok VNull), None, None, None, None.
    split; [constructor|]. split; [constructor|]. split; [done|]. split; [done|].
    split; run_steps. }
  pose proof (transform_nonempty _ _ _ Hraw Etr1) as Hne1.
  pose proof (transform_nonempty _ _ _ Hraw Etr2) as Hne2.
  assert (Hload : same_but "extracted_at" (df_load env1 clean1) (df_load env2 clean2)).
  { destruct (transform_clean_records _ _ _ Hraw Etr1) as [_ Hrows1].
    destruct (transform_clean_records _ _ _ Hraw Etr2) as [_ Hrows2].
    pose proof (transform_columns _ _ _ Hraw Etr1) as Hcols1.
    pose proof (transform_columns _ _ _ Hraw Etr2) as Hcols2.
    destruct clean1 as [c1 r1], clean2 as [c2 r2]. cbn [columns rows] in *. subst.
    by apply df_load_same_but. }
  destruct (client_error env1) as [e|] eqn:Hc1; rewrite ?Hc1 in Hc.
  { exists (Raise (SystemExit 1)), None, None, None, None.
    split; [constructor|]. split; [constructor|]. split; [done|]. split; [done|].
    split; run_steps. }
  destruct (staging_load_error env1) as [e|] eqn:Hs1; rewrite ?Hs1 in Hs.
  { exists (Raise (SystemExit 1)), None, None, None, None.
    split; [constructor|]. split; [constructor|]. split; [done|]. split; [done|].
    split; run_steps. }
  destruct (swap_error env1) as [e|] eqn:Hw1; rewrite ?Hw1 in Hw.
  { exists (Raise (SystemExit 1)),
      (Some (df_load env1 clean1)), (Some (df_load env2 clean2)), None, None.
    split; [by constructor|]. split; [constructor|]. split; [done|]. split; [done|].
    split; run_steps. }
  destruct (count_query env1) as [e|total] eqn:Hq1; rewrite ?Hq1 in Hq.
  { exists (Raise (SystemExit 1)),
      (Some (df_load env1 clean1)), (Some (df_load env2 clean2)),
      (Some (df_load env1 clean1)), (Some (df_load env2 clean2)).
    split; [by constructor|]. split; [by constructor|]. split; [done|]. split; [done|].
    split; run_steps. }
  exists (Ok VNull),
    (Some (df_load env1 clean1)), (Some (df_load env2 clean2)),
    (Some (df_load env1 clean1)), (Some (df_load env2 clean2)).
  split; [by constructor|]. split; [by constructor|]. split; [done|]. split; [done|].
  split; run_steps.
Qed.

(** X17. A second run that finds the same source data and the same
    outcomes of the warehouse calls, at a later time, ends as the first
    one did, and leaves staging and production with the columns and the
    records the first run left, except for the cells of
    [extracted_at]. *)
Theorem rerun_differs_by_stamp env1 env2 category w :
  http_get env2 = http_get env1 →
  client_error env2 = client_error env1 →
  staging_load_error env2 = staging_load_error env1 →
  swap_error env2 = swap_error env1 →
  count_query env2 = count_query env1 →
  time_str env2 = time_str env1 →
  let r1 := run_pipeline env1 category w in
  let r2 := run_pipeline env2 category (snd r1) in
  fst r2 = fst r1 ∧
  option_Forall2 (same_but "extracted_at")
    (staging (bq (snd r1))) (staging (bq (snd r2))) ∧
  option_Forall2 (same_but "extracted_at")
    (production (bq (snd r1))) (production (bq (snd r2))).
Proof.
  intros Hhttp Hc Hs Hw Hq Ht. cbv zeta.
  destruct (run_pair env1 env2 category Hhttp Hc Hs Hw Hq Ht)
    as (r & ws1 & ws2 & wp1 & wp2 & Hws & Hwp & Hsn & Hpn & H1 & H2).
  destruct (H1 w) as (R1 & S1 & P1).
  destruct (H2 (snd (run_pipeline env1 category w))) as (R2 & S2 & P2).
  rewrite R1, R2, S2, P2, S1, P1. split; [done|]. split.
  - destruct Hws as [t1 t2 Hsame|]; simpl; [by constructor|].
    apply option_same_but_refl.
  - destruct Hwp as [t1 t2 Hsame|]; simpl; [by constructor|].
    apply option_same_but_refl.
Qed.

Lemma rerun_differs_by_stamp_witness :
  let r1 := run_pipeline env_ok "snacks" world_old in
  let r2 := run_pipeline env_later "snacks" (snd r1) in
  fst r2 = fst r1 ∧
  option_Forall2 (same_but "extracted_at")
    (staging (bq (snd r1))) (staging (bq (snd r2))) ∧
  option_Forall2 (same_but "extracted_at")
    (production (bq (snd r1))) (production (bq (snd r2))).
Proof.
  apply (rerun_differs_by_stamp env_ok env_later "snacks" world_old); exact eq_refl.
Defined.

(** ** The Airflow tasks, chained *)

(** X19. When the extract task and then the transform task return,
    neither has touched the warehouse; the transform task has cleaned
    the frame read back from the text the extract task pushed; and the
    load task reads back the text the transform task pushed, whatever
    the store held before: when that fails it raises and changes
    nothing, otherwise it ends as [load_to_bigquery] on that frame ends
    and leaves the staging and production tables that call leaves. *)
Theorem dag_tasks_chain {Json} (to_json : DataFrame → res Json)
    (read_json : option Json → res DataFrame) env (a0 a1 a2 : Airflow Json) v1 v2 :
  extract_task to_json env "extract" a0 = (Ok v1, a1) →
  transform_task to_json read_json env "transform" a1 = (Ok v2, a2) →
  ∃ df_raw raw_json df_read df_clean clean_json,
    extract_product_data env "beverages" 100 = Ok df_raw ∧
    to_json df_raw = Ok raw_json ∧
    read_json (Some raw_json) = Ok df_read ∧
    transform_product_data (now env) df_read = Ok df_clean ∧
    to_json df_clean = Ok clean_json ∧
    dag_world a1 = dag_world a0 ∧
    dag_world a2 = dag_world a0 ∧
    xcom a2 !! ("transform", "clean_data") = Some clean_json ∧
    let r := load_task read_json env "load" a2 in
    match read_json (Some clean_json) with
    | Raise x => r = (Raise x, a2)
    | Ok df_loaded =>
        let l := load_to_bigquery env df_loaded (dag_world a0) in
        fst r = fst l ∧
        staging (bq (dag_world (snd r))) = staging (bq (snd l)) ∧
        production (bq (dag_world (snd r))) = production (bq (snd l))
    end.
Proof.
  intros H1 H2.
  (* the extract task *)
  unfold extract_task, xcom_push, task_print, bind, ret, of_res in H1.
  destruct (extract_product_data env "beverages" 100) as [df_raw|x] eqn:Eex;
    [|discriminate].
  destruct (to_json df_raw) as [raw_json|x] eqn:Eraw; [|discriminate].
  injection H1 as _ <-.
  (* the transform task *)
  unfold transform_task, xcom_pull, xcom_push, task_print, bind, ret, of_res in H2.
  cbn [xcom task_log dag_world] in H2. rewrite lookup_insert_eq in H2.
  destruct (read_json (Some raw_json)) as [df_read|x] eqn:Eread; [|discriminate].
  destruct (transform_product_data (now env) df_read) as [df_clean|x] eqn:Etr;
    [|discriminate].
  destruct (to_json df_clean) as [clean_json|x] eqn:Eclean; [|discriminate].
  injection H2 as _ <-.
  exists df_raw, raw_json, df_read, df_clean, clean_json.
  split; [done|]. split; [done|]. split; [done|]. split; [done|]. split; [done|].
  split; [done|]. split; [done|].
  cbn [xcom task_log dag_world]. split; [by rewrite lookup_insert_eq|].
  (* the load task *)
  cbv zeta. unfold load_task, xcom_pull, task_print, in_dag_world, bind, ret, of_res.
  cbn [xcom task_log dag_world]. rewrite lookup_insert_eq.
  destruct (read_json (Some clean_json)) as [df_loaded|x]; [|done].
  destruct (load_outcome env df_loaded (dag_world a0))
    as (r & st & pr & out & Hld & Hr & _).
  rewrite Hld. destruct Hr as [->|[e ->]].
  - by rewrite log_pipeline_run_eq.
  - done.
Qed.

Lemma dag_tasks_chain_witness :
  ∃ a1 a2 df_raw raw_json df_read df_clean clean_json,
    extract_task to_json_exact env_ok "extract" airflow_old = (Ok VNull, a1) ∧
    transform_task to_json_exact read_json_exact env_ok "transform" a1 = (Ok VNull, a2) ∧
    extract_product_data env_ok "beverages" 100 = Ok df_raw ∧
    to_json_exact df_raw = Ok raw_json ∧
    read_json_exact (Some raw_json) = Ok df_read ∧
    transform_product_data (now env_ok) df_read = Ok df_clean ∧
    to_json_exact df_clean = Ok clean_json ∧
    dag_world a1 = dag_world airflow_old ∧
    dag_world a2 = dag_world airflow_old ∧
    xcom a2 !! ("transform", "clean_data") = Some clean_json ∧
    let r := load_task read_json_exact env_ok "load" a2 in
    match read_json_exact (Some clean_json) with
    | Raise x => r = (Raise x, a2)
    | Ok df_loaded =>
        let l := load_to_bigquery env_ok df_loaded (dag_world airflow_old) in
        fst r = fst l ∧
        staging (bq (dag_world (snd r))) = staging (bq (snd l)) ∧
        production (bq (dag_world (snd r))) = production (bq (snd l))
    end.
Proof.
  pose (a1 := snd (extract_task to_json_exact env_ok "extract" airflow_old)).
  pose (a2 := snd (transform_task to_json_exact read_json_exact env_ok "transform" a1)).
  assert (H1 : extract_task to_json_exact env_ok "extract" airflow_old = (Ok VNull, a1))
    by (vm_compute; exact eq_refl).
  assert (H2 : transform_task to_json_exact read_json_exact env_ok "transform" a1
               = (Ok VNull, a2))
    by (vm_compute; exact eq_refl).
  exists a1, a2.
  destruct (dag_tasks_chain to_json_exact read_json_exact env_ok airflow_old
              a1 a2 VNull VNull H1 H2)
    as (df_raw & raw_json & df_read & df_clean & clean_json & H).
  exists df_raw, raw_json, df_read, df_clean, clean_json.
  split; [exact H1|]. split; [exact H2|]. exact H.
Defined.
